(** * renomeador_lote: a batch renamer, embedded and verified

    Shallow embedding of [src/renomeador_lote/renomeador_lote.py]:
    the name transformer ([slugify_name], [apply_transformations],
    [compute_new_name_for_path]), the plan builder ([build_rename_plans]),
    the conflict detector ([detect_conflicts]), the executor
    ([execute_plans]) and the control flow of [main].

    Modelling conventions.
    - A Python [str] is a Rocq [string]; its characters are Rocq's [ascii].
      The builtins that consult the Unicode database ([str.lower],
      [unicodedata.normalize], [unicodedata.combining], the white space class
      of [str.strip]) are the fields of the class [Unicode]; [ascii_tables]
      is their restriction to ASCII text, used to evaluate examples.
    - [re.sub] with a user supplied pattern is the field of the class
      [Regex]; the three fixed patterns of [slugify_name] are written out.
    - A [pathlib.Path] is the list of its [parts] (POSIX flavour, the anchor
      ["/"] first).  Queries to the operating system are the fields of the
      class [Snapshot]; the directory listing seen by [os.walk] is a list of [entry].
    - An exception is a value of [exn]; code that can raise returns a
      [result]. *)

From Stdlib Require Import Ascii String List Bool Arith ZArith Lia.
From stdpp Require Import gmap strings sorting.

Set Default Proof Using "Type".
Set Warnings "-register-all,-clear-no-such-hyp".

(** ** Exceptions *)

Inductive exn : Type :=
| re_error        (* re.error *)
| ValueError
| OSError
| IndexError.

Inductive result (A : Type) : Type :=
| Ok (a : A)
| Raise (e : exn).
Arguments Ok {A} a.
Arguments Raise {A} e.

#[global] Instance result_ret : MRet result := fun _ a => Ok a.
#[global] Instance result_bind : MBind result := fun _ _ f m =>
  match m with
  | Ok a => f a
  | Raise e => Raise e
  end.

(** ** Python [str] operations *)

Module PyStr.

(** Truthiness of a [str]: [if s:]. *)
Definition truthy (s : string) : bool :=
  match s with
  | EmptyString => false
  | String _ _ => true
  end.

(** [s.startswith(c)] for a one-character prefix. *)
Definition startswith (c : ascii) (s : string) : bool :=
  match s with
  | EmptyString => false
  | String a _ => Ascii.eqb a c
  end.

(** [s.replace(a, b)] for one-character [a] and [b]. *)
Fixpoint replace (a b : ascii) (s : string) : string :=
  match s with
  | EmptyString => EmptyString
  | String c s' => String (if Ascii.eqb c a then b else c) (replace a b s')
  end.

(** Keep the characters that satisfy [p]. *)
Fixpoint filter (p : ascii -> bool) (s : string) : string :=
  match s with
  | EmptyString => EmptyString
  | String c s' => if p c then String c (filter p s') else filter p s'
  end.

Fixpoint lstrip (p : ascii -> bool) (s : string) : string :=
  match s with
  | EmptyString => EmptyString
  | String c s' => if p c then lstrip p s' else s
  end.

Fixpoint rstrip (p : ascii -> bool) (s : string) : string :=
  match s with
  | EmptyString => EmptyString
  | String c s' =>
      match rstrip p s' with
      | EmptyString => if p c then EmptyString else String c EmptyString
      | r => String c r
      end
  end.

(** [s.strip(chars)]: drop the longest prefix and suffix made of
    characters in the class [p]. *)
Definition strip (p : ascii -> bool) (s : string) : string :=
  rstrip p (lstrip p s).

(** [re.sub(c{2,}, c, s)]: every run of two or more [c] becomes one [c]. *)
Fixpoint collapse (c : ascii) (s : string) : string :=
  match s with
  | EmptyString => EmptyString
  | String a s' =>
      match s' with
      | String b _ =>
          if Ascii.eqb a c && Ascii.eqb b c then collapse c s'
          else String a (collapse c s')
      | EmptyString => String a EmptyString
      end
  end.

(** [s.rfind(c)]: index of the last occurrence of [c], if any. *)
Fixpoint rfind (c : ascii) (s : string) : option nat :=
  match s with
  | EmptyString => None
  | String a s' =>
      match rfind c s' with
      | Some i => Some (S i)
      | None => if Ascii.eqb a c then Some 0 else None
      end
  end.

(** [s[:i]] and [s[i:]]. *)
Fixpoint take (i : nat) (s : string) : string :=
  match i, s with
  | S i', String a s' => String a (take i' s')
  | _, _ => EmptyString
  end.

Fixpoint drop (i : nat) (s : string) : string :=
  match i, s with
  | S i', String _ s' => drop i' s'
  | _, _ => s
  end.

(** [c in s]. *)
Fixpoint contains (c : ascii) (s : string) : bool :=
  match s with
  | EmptyString => false
  | String a s' => Ascii.eqb a c || contains c s'
  end.

(** [sep.join(l)] for a one-character separator. *)
Fixpoint join (sep : ascii) (l : list string) : string :=
  match l with
  | [] => EmptyString
  | [s] => s
  | s :: l' => s +:+ String sep (join sep l')
  end.

(** [s.split(sep)] for a one-character separator; never empty. *)
Fixpoint split (sep : ascii) (s : string) : list string :=
  match s with
  | EmptyString => [EmptyString]
  | String a s' =>
      if Ascii.eqb a sep then EmptyString :: split sep s'
      else match split sep s' with
           | [] => [String a EmptyString]
           | w :: ws => String a w :: ws
           end
  end.

(** [a <= c <= b] on code points, the meaning of the range [a-b] in a
    character class. *)
Definition in_range (a b c : ascii) : bool :=
  (a <=? c)%char && (c <=? b)%char.

End PyStr.

(** ** The Unicode database *)

Class Unicode : Type := {
  (** [s.lower()] *)
  str_lower : string -> string;
  (** [unicodedata.normalize("NFKD", s)] *)
  normalize_NFKD : string -> string;
  (** [unicodedata.combining(ch) != 0] *)
  combining : ascii -> bool;
  (** [ch.isspace()], the class removed by [s.strip()] *)
  isspace : ascii -> bool
}.

(** The tables on ASCII text: [lower] maps [A-Z] to [a-z], NFKD leaves the
    text alone, no character is a combining mark, and the white space
    characters are U+0009..U+000D, U+001C..U+001F and U+0020. *)
Definition ascii_lower_char (c : ascii) : ascii :=
  if PyStr.in_range "A" "Z" c
  then ascii_of_nat (nat_of_ascii c + 32)
  else c.

Fixpoint ascii_lower (s : string) : string :=
  match s with
  | EmptyString => EmptyString
  | String c s' => String (ascii_lower_char c) (ascii_lower s')
  end.

Definition ascii_isspace (c : ascii) : bool :=
  let n := nat_of_ascii c in
  ((9 <=? n) && (n <=? 13)) || ((28 <=? n) && (n <=? 32)).

Definition ascii_tables : Unicode := {|
  str_lower := ascii_lower;
  normalize_NFKD := fun s => s;
  combining := fun _ => false;
  isspace := ascii_isspace
|}.

(** ** The regular expression engine *)

Class Regex : Type := {
  (** [re.sub(pattern, repl, string)]: the new string, or the exception the
      engine raises. *)
  re_sub : string -> string -> string -> result string;
  (** [re.compile(pattern)] succeeds. *)
  re_compiles : string -> bool
}.

(** ** The name transformer *)

Section Transformer.
Context {U : Unicode} {R : Regex}.

Definition strip_accents (s : string) : string :=
  PyStr.filter (fun ch => negb (combining ch)) (normalize_NFKD s).

(** The complement of the class in [allowed]: a character survives
    [re.sub(allowed, "", s)] iff it is in [a-zA-Z0-9_-], or is a dot when
    [keep_dots]. *)
Definition slug_allowed (keep_dots : bool) (c : ascii) : bool :=
  PyStr.in_range "a" "z" c || PyStr.in_range "A" "Z" c
  || PyStr.in_range "0" "9" c
  || Ascii.eqb c "_" || Ascii.eqb c "-"
  || (keep_dots && Ascii.eqb c ".").

Definition slugify_name (name : string)
    (lower spaces_to_underscore keep_dots : bool) : string :=
  let s := strip_accents name in
  let s := if lower then str_lower s else s in
  let s := if spaces_to_underscore
           then PyStr.replace " " "_" s
           else PyStr.replace " " "-" s in
  let s := PyStr.filter (slug_allowed keep_dots) s in
  let s := PyStr.collapse "_" s in
  let s := PyStr.collapse "-" s in
  let s := PyStr.strip (fun c => Ascii.eqb c "_" || Ascii.eqb c "-") s in
  if PyStr.truthy s then s else "item".

(** [regex_to or ""] *)
Definition or_empty (o : option string) : string :=
  match o with
  | Some s => s
  | None => ""
  end.

(** The first stage: [re.sub] guarded by [except re.error: pass]. *)
Definition regex_stage (regex_pattern regex_to : option string)
    (name : string) : result string :=
  match regex_pattern with
  | Some pat =>
      if PyStr.truthy pat then
        match re_sub pat (or_empty regex_to) name with
        | Ok s => Ok s
        | Raise re_error => Ok name
        | Raise e => Raise e
        end
      else Ok name
  | None => Ok name
  end.

Definition apply_transformations (original_name : string)
    (spaces_to_underscore slugify lower : bool) (prefix suffix : string)
    (regex_pattern regex_to : option string) (keep_extension : bool)
    : result string :=
  name ← regex_stage regex_pattern regex_to original_name;
  let name :=
    if slugify
    then slugify_name name lower spaces_to_underscore true
    else
      let name := if spaces_to_underscore
                  then PyStr.replace " " "_" name else name in
      if lower then str_lower name else name in
  let name := if PyStr.truthy prefix then prefix +:+ name else name in
  let name := if PyStr.truthy suffix then name +:+ suffix else name in
  let name := PyStr.strip isspace name in
  Ok (if PyStr.truthy name then name else "item").

End Transformer.

(** ** [pathlib] paths *)

Abbreviation Path := (list string).

Module PathLib.

(** [p.name]: the last part, empty for the bare anchor. *)
Definition name (p : Path) : string :=
  match p with
  | [] => ""
  | [a] => if String.eqb a "/" then "" else a
  | _ => default "" (last p)
  end.

(** [p.parent] *)
Definition parent (p : Path) : Path :=
  match p with
  | [] => []
  | [a] => if String.eqb a "/" then p else []
  | _ => removelast p
  end.

(** [p / n] for a directory entry name [n]. *)
Definition joinpath (p : Path) (n : string) : Path := p ++ [n].

(** [str(p)] *)
Definition str (p : Path) : string :=
  match p with
  | [] => "."
  | a :: rest =>
      if String.eqb a "/" then "/" +:+ PyStr.join "/" rest
      else PyStr.join "/" p
  end.

(** Where [name[i:]] is the suffix: [i = name.rfind('.')] with
    [0 < i < len(name) - 1]. *)
Definition suffix_index (n : string) : option nat :=
  match PyStr.rfind "." n with
  | Some i =>
      if (0 <? i)%nat && (i <? String.length n - 1)%nat then Some i else None
  | None => None
  end.

Definition suffix (p : Path) : string :=
  match suffix_index (name p) with
  | Some i => PyStr.drop i (name p)
  | None => ""
  end.

Definition stem (p : Path) : string :=
  match suffix_index (name p) with
  | Some i => PyStr.take i (name p)
  | None => name p
  end.

(** A string [with_name] accepts: not empty, no separator, not ["."]. *)
Definition valid_name (n : string) : bool :=
  PyStr.truthy n && negb (PyStr.contains "/" n) && negb (String.eqb n ".").

(** [p.with_name(n)]; [ValueError] when [p] has no name or [n] is not a
    valid name. *)
Definition with_name (p : Path) (n : string) : result Path :=
  if negb (PyStr.truthy (name p)) then Raise ValueError
  else if negb (valid_name n) then Raise ValueError
  else Ok (removelast p ++ [n]).

(** [target.relative_to(root)] does not raise. *)
Definition is_relative_to (target root : Path) : bool :=
  bool_decide (root `prefix_of` target).

End PathLib.

Infix "/" := PathLib.joinpath : stdpp_scope.

Record RenamePlan : Type := { src : Path; dst : Path }.

(** ** The file system, as the run observes it *)

(** One directory entry as [os.walk] classifies it: a name that is not a
    directory, a symbolic link to a directory (listed among the directories,
    never descended into), or a directory with its own entries. *)
Inductive entry : Type :=
| File (n : string)
| LinkDir (n : string)
| Folder (n : string) (children : list entry).

Definition entry_name (e : entry) : string :=
  match e with
  | File n | LinkDir n | Folder n _ => n
  end.

Definition entry_is_dir (e : entry) : bool :=
  match e with
  | File _ => false
  | LinkDir _ | Folder _ _ => true
  end.

Class Snapshot : Type := {
  (** [p.resolve()] *)
  resolve : Path -> Path;
  (** [p.exists()] *)
  path_exists : Path -> bool;
  (** [p.is_dir()] *)
  is_dir : Path -> bool;
  (** [p.is_file()] *)
  is_file : Path -> bool;
  (** The entries below a directory, in the order the operating system
      lists them; [None] when the path cannot be listed. *)
  scandir : Path -> option (list entry)
}.

(** ** Loops *)

(** [for x in l: body], threading the loop state and stopping at the first
    exception. *)
Fixpoint for_each {A S : Type} (body : S -> A -> result S)
    (l : list A) (s : S) : result S :=
  match l with
  | [] => Ok s
  | x :: l' => s' ← body s x; for_each body l' s'
  end.

(** ** [list.sort(key=...)]

    Python's sort is stable and compares keys with [<] only.  The sorted
    list is therefore determined by the input and the key order; insertion
    into an already sorted tail, in front of the first element whose key is
    not smaller, computes it. *)
Section Sort.
Context {A K : Type} (ltb : K -> K -> bool) (key : A -> K).

Fixpoint sort_insert (x : A) (l : list A) : list A :=
  match l with
  | [] => [x]
  | y :: l' =>
      if ltb (key y) (key x) then y :: sort_insert x l' else x :: y :: l'
  end.

Fixpoint list_sort (l : list A) : list A :=
  match l with
  | [] => []
  | x :: l' => sort_insert x (list_sort l')
  end.
End Sort.

(** [<] on the tuples returned by [sort_key]: the first component that
    differs decides. *)
Definition key_ltb (a b : Z * Z * string) : bool :=
  let '(a1, a2, a3) := a in
  let '(b1, b2, b3) := b in
  if (a1 =? b1)%Z then
    if (a2 =? b2)%Z then String.ltb a3 b3 else (a2 <? b2)%Z
  else (a1 <? b1)%Z.

(** ** The plan builder *)

Section Builder.
Context {U : Unicode} {R : Regex} {S : Snapshot}.

Definition is_hidden_path (p : Path) : bool :=
  PyStr.startswith "." (PathLib.name p).

Definition is_within_root (root target : Path) : bool :=
  PathLib.is_relative_to (resolve target) (resolve root).

(** The test of the loop in [prune_dirs_inplace]: [d] is kept. *)
Definition prune_keep (prune_names : list string) (include_hidden : bool)
    (d : string) : bool :=
  negb (bool_decide (d ∈ prune_names))
  && negb (negb include_hidden && PyStr.startswith "." d).

(** The value of [dirs] after [prune_dirs_inplace(dirs, ...)]. *)
Definition prune_dirs_inplace (dirs prune_names : list string)
    (include_hidden : bool) : list string :=
  List.filter (prune_keep prune_names include_hidden) dirs.

(** The triple [os.walk] yields for the directory [top], after the
    consumer has pruned [dirs] in place. *)
Definition walk_triple (prune_names : list string) (include_hidden : bool)
    (top : Path) (entries : list entry)
    : Path * list string * list string :=
  (top,
   prune_dirs_inplace (entry_name <$> List.filter entry_is_dir entries)
     prune_names include_hidden,
   entry_name <$> List.filter (fun e => negb (entry_is_dir e)) entries).

(** What the walk yields below the entry [e] of [top]: nothing unless [e]
    is a real directory that survived the pruning. *)
Fixpoint walk_below (prune_names : list string) (include_hidden : bool)
    (top : Path) (e : entry) {struct e}
    : list (Path * list string * list string) :=
  match e with
  | Folder n children =>
      if prune_keep prune_names include_hidden n then
        walk_triple prune_names include_hidden (top / n) children
        :: flat_map (walk_below prune_names include_hidden (top / n))
             children
      else []
  | _ => []
  end.

(** [os.walk(top)], top down and without following links, for a consumer
    that prunes [dirs] in place as soon as it receives a triple: each
    triple carries the pruned [dirs], and the walk descends into the
    directories that were kept, in order. *)
Definition os_walk (prune_names : list string) (include_hidden : bool)
    (top : Path) (entries : list entry)
    : list (Path * list string * list string) :=
  walk_triple prune_names include_hidden top entries
  :: flat_map (walk_below prune_names include_hidden top) entries.

Section Options.
Variables (spaces_to_underscore slugify lower : bool)
          (prefix suffix : string)
          (regex_pattern regex_to : option string)
          (no_keep_extension : bool).

Definition compute_new_name_for_path (p : Path) : result string :=
  if is_file p && negb no_keep_extension then
    new_stem ← apply_transformations (PathLib.stem p)
                 spaces_to_underscore slugify lower prefix suffix
                 regex_pattern regex_to true;
    Ok (new_stem +:+ PathLib.suffix p)
  else
    apply_transformations (PathLib.name p)
      spaces_to_underscore slugify lower prefix suffix
      regex_pattern regex_to false.

(** The tail of every loop body: compute the new name and append a plan
    unless the name is unchanged. *)
Definition plan_entry (plans : list RenamePlan) (p : Path)
    : result (list RenamePlan) :=
  new_name ← compute_new_name_for_path p;
  if String.eqb new_name (PathLib.name p) then Ok plans
  else
    d ← PathLib.with_name p new_name;
    Ok (plans ++ [{| src := p; dst := d |}]).

(** [root.iterdir()] *)
Definition iterdir (root : Path) : result (list Path) :=
  match scandir root with
  | Some entries => Ok ((fun e => root / entry_name e) <$> entries)
  | None => Raise OSError
  end.

(** Body of the loop over [entries] in the non recursive branch. *)
Definition flat_body (include_files include_dirs include_hidden : bool)
    (plans : list RenamePlan) (p : Path) : result (list RenamePlan) :=
  if negb include_hidden && is_hidden_path p then Ok plans
  else if is_dir p && negb include_dirs then Ok plans
  else if is_file p && negb include_files then Ok plans
  else plan_entry plans p.

Definition warn_outside (p : Path) : string :=
  "ignorado (fora do root): " +:+ PathLib.str p.

(** Body of the loops over [files] and over [dirs] in the recursive
    branch; the state is [(plans, warnings)]. *)
Definition walk_body (root current : Path) (include_hidden : bool)
    (st : list RenamePlan * list string) (n : string)
    : result (list RenamePlan * list string) :=
  let p := current / n in
  if negb include_hidden && is_hidden_path p then Ok st
  else if negb (is_within_root root p)
  then Ok (st.1, st.2 ++ [warn_outside p])
  else plans ← plan_entry st.1 p; Ok (plans, st.2).

(** Body of [for dirpath, dirs, files in os.walk(root)]. *)
Definition walk_step (root : Path)
    (include_files include_dirs include_hidden : bool)
    (st : list RenamePlan * list string)
    (triple : Path * list string * list string)
    : result (list RenamePlan * list string) :=
  let '(current, dirs, files) := triple in
  st ← (if include_files
        then for_each (walk_body root current include_hidden) files st
        else Ok st);
  if include_dirs
  then for_each (walk_body root current include_hidden) dirs st
  else Ok st.

Definition sort_key (plan : RenamePlan) : Z * Z * string :=
  let is_dir := if is_dir (src plan) then 1%Z else 0%Z in
  let depth := Z.of_nat (length (src plan)) in
  (is_dir, (- depth)%Z, str_lower (PathLib.str (src plan))).

Definition flat_key (x : RenamePlan) : string :=
  str_lower (PathLib.str (src x)).

Definition build_rename_plans (root : Path)
    (recursive include_files include_dirs include_hidden : bool)
    (prune_dirs : list string)
    : result (list RenamePlan * list string) :=
  let root := resolve root in
  if negb recursive then
    entries ← iterdir root;
    plans ← for_each
              (flat_body include_files include_dirs include_hidden)
              entries [];
    Ok (list_sort String.ltb flat_key plans, [])
  else
    st ← for_each
           (walk_step root include_files include_dirs include_hidden)
           (match scandir root with
            | Some entries => os_walk prune_dirs include_hidden root entries
            | None => []
            end)
           ([], []);
    Ok (list_sort key_ltb sort_key st.1, st.2).

End Options.
End Builder.

(** ** The conflict detector *)

Section Detector.
Context {S : Snapshot}.

Definition dst_key (plan : RenamePlan) : string :=
  PathLib.str (resolve (dst plan)).

Definition src_key (plan : RenamePlan) : string :=
  PathLib.str (resolve (src plan)).

Definition collision_message (plan : RenamePlan) (first : Path) : string :=
  "conflito: '" +:+ PathLib.str (src plan) +:+ "' e '"
  +:+ PathLib.str first +:+ "' virariam '"
  +:+ PathLib.str (dst plan) +:+ "'".

Definition exists_message (plan : RenamePlan) : string :=
  "destino ja existe: '" +:+ PathLib.str (dst plan)
  +:+ "' (origem: '" +:+ PathLib.str (src plan) +:+ "')".

(** [dst_key in seen and str(seen[dst_key].resolve()) != src_key] *)
Definition collides (seen : gmap string Path) (plan : RenamePlan)
    : option Path :=
  match seen !! dst_key plan with
  | Some first =>
      if negb (String.eqb (PathLib.str (resolve first)) (src_key plan))
      then Some first else None
  | None => None
  end.

(** [plan.dst.exists() and plan.dst.resolve() != plan.src.resolve()] *)
Definition target_exists (plan : RenamePlan) : bool :=
  path_exists (dst plan)
  && negb (bool_decide (resolve (dst plan) = resolve (src plan))).

(** One iteration of the loop; the state is [(errors, seen)]. *)
Definition detect_step (st : list string * gmap string Path)
    (plan : RenamePlan) : list string * gmap string Path :=
  let '(errors, seen) := st in
  let '(errors, seen) :=
    match collides seen plan with
    | Some first => (errors ++ [collision_message plan first], seen)
    | None => (errors, <[dst_key plan := src plan]> seen)
    end in
  let errors :=
    if target_exists plan then errors ++ [exists_message plan]
    else errors in
  (errors, seen).

Definition detect_conflicts (plans : list RenamePlan) : list string :=
  (fold_left detect_step plans ([], ∅)).1.

End Detector.

(** ** The executor *)

(** A file system that can be changed: every state [w] can be observed
    ([snapshot]) and [rename w a b] is the state after [a.rename(b)]
    together with the exception it raised, if any. *)
Class FileSystem (W : Type) : Type := {
  snapshot : W -> Snapshot;
  rename : W -> Path -> Path -> W * option exn
}.

(** What a run leaves behind: the state of the file system, the calls to
    [rename] in the order they were made, each with its outcome, and the two
    counters. *)
Record Execution (W : Type) : Type := {
  world : W;
  attempts : list (RenamePlan * option exn);
  ok_count : nat;
  err_count : nat
}.
Arguments world {W} _.
Arguments attempts {W} _.
Arguments ok_count {W} _.
Arguments err_count {W} _.

Section Executor.
Context {W : Type} {F : FileSystem W}.

(** One iteration of the loop of [execute_plans]. *)
Definition execute_step (e : Execution W) (plan : RenamePlan)
    : Execution W :=
  match rename (world e) (src plan) (dst plan) with
  | (w', None) =>
      {| world := w'; attempts := attempts e ++ [(plan, None)];
         ok_count := ok_count e + 1; err_count := err_count e |}
  | (w', Some x) =>
      {| world := w'; attempts := attempts e ++ [(plan, Some x)];
         ok_count := ok_count e; err_count := err_count e + 1 |}
  end.

Definition execute_plans (w : W) (plans : list RenamePlan) : Execution W :=
  fold_left execute_step plans
    {| world := w; attempts := []; ok_count := 0; err_count := 0 |}.

End Executor.

(** ** [main] *)

Record Args : Type := {
  arg_root : Path;
  arg_recursive : bool;
  arg_dry_run : bool;
  arg_yes : bool;
  arg_include_hidden : bool;
  arg_include_files : bool;
  arg_include_dirs : bool;
  arg_spaces_to_underscore : bool;
  arg_slugify : bool;
  arg_lower : bool;
  arg_prefix : string;
  arg_suffix : string;
  arg_regex : string;
  arg_to : string;
  arg_no_keep_extension : bool;
  arg_prune_dirs : string
}.

Definition DEFAULT_PRUNE_DIRS : list string :=
  [".git"; "node_modules"; ".venv"; "venv"; "env"; "__pycache__"; "dist";
   "build"].

(** The result of [main]: its return value, the file system it leaves and
    the renames it attempted. *)
Record Run (W : Type) : Type := {
  exit_code : Z;
  final_world : W;
  renames : list (RenamePlan * option exn)
}.
Arguments exit_code {W} _.
Arguments final_world {W} _.
Arguments renames {W} _.

Section Main.
Context {U : Unicode} {R : Regex} {W : Type} {F : FileSystem W}.

Definition parse_csv_list (raw : string) : list string :=
  let raw := PyStr.strip isspace raw in
  if negb (PyStr.truthy raw) then []
  else
    List.filter PyStr.truthy (PyStr.strip isspace <$> PyStr.split "," raw).

(** [args.regex.strip() or None] *)
Definition regex_pattern_of (args : Args) : option string :=
  let s := PyStr.strip isspace (arg_regex args) in
  if PyStr.truthy s then Some s else None.

(** The early validation fails: a pattern is configured and
    [re.compile] raises [re.error]. *)
Definition bad_regex (args : Args) : bool :=
  match regex_pattern_of args with
  | Some pat => negb (re_compiles pat)
  | None => false
  end.

(** The plans and warnings [main] obtains from the builder in the state
    [w]. *)
Definition main_plans (w : W) (args : Args)
    : result (list RenamePlan * list string) :=
  let include_files := arg_include_files args in
  let include_dirs := arg_include_dirs args in
  let default_both := negb include_files && negb include_dirs in
  let include_files := if default_both then true else include_files in
  let include_dirs := if default_both then true else include_dirs in
  build_rename_plans (S := snapshot w)
    (arg_spaces_to_underscore args) (arg_slugify args) (arg_lower args)
    (arg_prefix args) (arg_suffix args)
    (regex_pattern_of args) (Some (arg_to args))
    (arg_no_keep_extension args)
    (resolve (Snapshot := snapshot w) (arg_root args))
    (arg_recursive args) include_files include_dirs
    (arg_include_hidden args)
    (DEFAULT_PRUNE_DIRS ++ parse_csv_list (arg_prune_dirs args)).

(** [main(argv)] after argument parsing; [stdin] is the line [input]
    reads when it is called. *)
Definition main (w : W) (stdin : string) (args : Args) : result (Run W) :=
  let stop (code : Z) :=
    Ok {| exit_code := code; final_world := w; renames := [] |} in
  if bad_regex args then stop 2%Z
  else
    '(plans, warnings) ← main_plans w args;
    match plans with
    | [] => stop 0%Z
    | _ =>
        match detect_conflicts (S := snapshot w) plans with
        | _ :: _ => stop 3%Z
        | [] =>
            if arg_dry_run args then stop 0%Z
            else if negb (arg_yes args)
                    && negb (String.eqb
                               (str_lower (PyStr.strip isspace stdin))
                               "sim")
            then stop 1%Z
            else
              let e := execute_plans w plans in
              Ok {| exit_code := if (err_count e =? 0)%nat then 0%Z
                                 else 4%Z;
                    final_world := world e;
                    renames := attempts e |}
        end
    end.

End Main.

(** * Vocabulary of the statements *)

(** The plans of a builder result; a run that raised produced none. *)
Definition plans_of (r : result (list RenamePlan * list string))
    : list RenamePlan :=
  match r with
  | Ok (plans, _) => plans
  | Raise _ => []
  end.

(** The order Python's [<] induces on the keys of [sort_key]. *)
Definition key_le (a b : Z * Z * string) : Prop :=
  (a.1.1 < b.1.1)%Z
  \/ (a.1.1 = b.1.1
      /\ ((a.1.2 < b.1.2)%Z \/ (a.1.2 = b.1.2 /\ String.le a.2 b.2))).

Section PlanVocabulary.
Context {U : Unicode} {R : Regex} {S : Snapshot}.
Variables (spaces_to_underscore slugify lower : bool)
          (prefix suffix : string)
          (regex_pattern regex_to : option string)
          (no_keep_extension : bool).

(** The name the run computes for [p]. *)
Definition new_name_of (p : Path) : result string :=
  compute_new_name_for_path spaces_to_underscore slugify lower prefix
    suffix regex_pattern regex_to no_keep_extension p.

(** [pl] is what the loop body appends for its source: the new name is
    computed, differs from the old one, and replaces it in the path. *)
Definition planned (pl : RenamePlan) : Prop :=
  exists n,
    new_name_of (src pl) = Ok n
    /\ n <> PathLib.name (src pl)
    /\ PathLib.with_name (src pl) n = Ok (dst pl).

End PlanVocabulary.

(** What [apply_transformations] computes when every option is off. *)
Definition neutral {U : Unicode} (n : string) : string :=
  if PyStr.truthy (PyStr.strip isspace n)
  then PyStr.strip isspace n else "item".

(** [a] occurs before [b] in [l]. *)
Definition before {A : Type} (a b : A) (l : list A) : Prop :=
  exists l1 l2 l3, l = l1 ++ a :: l2 ++ b :: l3.

Section OrderVocabulary.
Context {U : Unicode} {S : Snapshot}.

(** [a] may come before [b] in the recursive branch: a source that is not
    a directory before one that is; within a kind, more parts before
    fewer; then the lower-cased source text, in code point order. *)
Definition recursive_order (a b : RenamePlan) : Prop :=
  (is_dir (src a) = false /\ is_dir (src b) = true)
  \/ (is_dir (src a) = is_dir (src b)
      /\ (length (src b) < length (src a)
          \/ (length (src a) = length (src b)
              /\ String.le (flat_key a) (flat_key b)))).

(** [a] may come before [b] in the non recursive branch: the lower-cased
    source text alone decides. *)
Definition flat_order (a b : RenamePlan) : Prop :=
  String.le (flat_key a) (flat_key b).
End OrderVocabulary.

Section ConflictVocabulary.
Context {S : Snapshot}.

(** Two plans whose canonical sources differ reach one canonical
    destination. *)
Definition destination_collision (plans : list RenamePlan) : Prop :=
  exists p q,
    p ∈ plans /\ q ∈ plans
    /\ src_key p <> src_key q /\ dst_key p = dst_key q.

(** The destination of some plan exists and does not resolve to the
    plan's own source. *)
Definition target_exists_collision (plans : list RenamePlan) : Prop :=
  exists p,
    p ∈ plans /\ path_exists (dst p) = true
    /\ resolve (dst p) <> resolve (src p).

(** What the loop of [detect_conflicts] maintains after the plans
    [processed]:
    [seen] only holds sources of processed plans under their destination
    key; as long as nothing was reported every processed plan agrees with
    the entry of its destination and has no existing target; and a report
    is backed by a conflict. *)
Definition detect_invariant (processed : list RenamePlan)
    (st : list string * gmap string Path) : Prop :=
  (forall k s, st.2 !! k = Some s ->
     exists q, q ∈ processed /\ src q = s /\ dst_key q = k)
  /\ (st.1 = [] ->
      (forall p, p ∈ processed ->
         exists s, st.2 !! dst_key p = Some s
                   /\ PathLib.str (resolve s) = src_key p)
      /\ (forall p, p ∈ processed -> target_exists p = false))
  /\ (st.1 <> [] ->
      destination_collision processed \/ target_exists_collision processed).
End ConflictVocabulary.


(** * A small file system for the examples

    The tree below the root [/r], the symbolic links with the path each
    resolves to, and the paths whose rename is refused. *)

Record Demo : Type := {
  demo_tree : list entry;
  demo_links : list (Path * Path);
  demo_locked : list Path
}.

Definition demo_root : Path := ["/"; "r"].

Definition find_entry (n : string) (es : list entry) : option entry :=
  List.find (fun e => String.eqb (entry_name e) n) es.

(** The entry at the relative path [rel] below [es]. *)
Fixpoint lookup_entry (es : list entry) (rel : list string) : option entry :=
  match rel with
  | [] => None
  | [n] => find_entry n es
  | n :: rel' =>
      match find_entry n es with
      | Some (Folder _ children) => lookup_entry children rel'
      | _ => None
      end
  end.

(** [p] relative to [/r], when it is below it. *)
Definition below_root (p : Path) : option (list string) :=
  match p with
  | a :: b :: rel =>
      if String.eqb a "/" && String.eqb b "r" then Some rel else None
  | _ => None
  end.

Definition demo_entry (d : Demo) (p : Path) : option entry :=
  rel ← below_root p; lookup_entry (demo_tree d) rel.

Definition set_name (n : string) (e : entry) : entry :=
  match e with
  | File _ => File n
  | LinkDir _ => LinkDir n
  | Folder _ children => Folder n children
  end.

(** Give the entry at [rel] the name [n]. *)
Fixpoint rename_entry (es : list entry) (rel : list string) (n : string)
    : list entry :=
  match rel with
  | [] => es
  | [old] =>
      (fun e => if String.eqb (entry_name e) old then set_name n e else e)
      <$> es
  | dir :: rel' =>
      (fun e =>
         match e with
         | Folder m children =>
             if String.eqb m dir
             then Folder m (rename_entry children rel' n) else e
         | _ => e
         end) <$> es
  end.

Definition demo_resolve (d : Demo) (p : Path) : Path :=
  match List.find (fun l => bool_decide (l.1 = p)) (demo_links d) with
  | Some l => l.2
  | None => p
  end.

Definition demo_snapshot (d : Demo) : Snapshot := {|
  resolve := demo_resolve d;
  path_exists := fun p =>
    bool_decide (p = demo_root) || bool_decide (is_Some (demo_entry d p));
  is_dir := fun p =>
    bool_decide (p = demo_root)
    || match demo_entry d p with
       | Some e => entry_is_dir e
       | None => false
       end;
  is_file := fun p =>
    match demo_entry d p with
    | Some (File _) => true
    | _ => false
    end;
  scandir := fun p =>
    if bool_decide (p = demo_root) then Some (demo_tree d)
    else match demo_entry d p with
         | Some (Folder _ children) => Some children
         | _ => None
         end
|}.

(** [a.rename(b)] raises when [a] is missing or locked; otherwise the
    entry takes the name of [b]. *)
Definition demo_rename (d : Demo) (a b : Path) : Demo * option exn :=
  match below_root a with
  | Some rel =>
      if bool_decide (a ∈ demo_locked d)
         || negb (bool_decide (is_Some (demo_entry d a)))
      then (d, Some OSError)
      else ({| demo_tree := rename_entry (demo_tree d) rel (PathLib.name b);
               demo_links := demo_links d;
               demo_locked := demo_locked d |}, None)
  | None => (d, Some OSError)
  end.

#[global] Instance demo_fs : FileSystem Demo := {|
  snapshot := demo_snapshot;
  rename := demo_rename
|}.

(** CPython's [re.sub] as far as one example needs it: the template
    [\g<x>] names a group that the pattern [(a)] does not define, and the
    engine raises [IndexError] (unknown group name), which is not an
    [re.error]; [re.compile] accepts the pattern.  No other call is made. *)
Definition named_group_engine : Regex := {|
  re_sub := fun pat repl s =>
    if String.eqb pat "(a)" && String.eqb repl "\g<x>"
    then Raise IndexError else Ok s;
  re_compiles := fun _ => true
|}.

(** The run that replaces [(a)] by [\g<x>]. *)
Definition demo_args_named_group : Args := {|
  arg_root := demo_root;
  arg_recursive := false;
  arg_dry_run := true;
  arg_yes := false;
  arg_include_hidden := false;
  arg_include_files := false;
  arg_include_dirs := false;
  arg_spaces_to_underscore := false;
  arg_slugify := false;
  arg_lower := false;
  arg_prefix := "";
  arg_suffix := "";
  arg_regex := "(a)";
  arg_to := "\g<x>";
  arg_no_keep_extension := false;
  arg_prune_dirs := ""
|}.

(** An engine for runs that configure no pattern. *)
Definition no_regex : Regex := {|
  re_sub := fun _ _ s => Ok s;
  re_compiles := fun _ => true
|}.


(** [/r] holds the directory [a b] with the file [x y.txt] in it, and the
    file [c d.txt]. *)
Definition demo_nested : Demo := {|
  demo_tree := [Folder "a b" [File "x y.txt"]; File "c d.txt"];
  demo_links := [];
  demo_locked := []
|}.

(** [/r] holds [My Link], a symbolic link to the directory
    [/elsewhere/data], and the file [in side.txt]. *)
Definition demo_escape : Demo := {|
  demo_tree := [LinkDir "My Link"; File "in side.txt"];
  demo_links := [(demo_root / "My Link", ["/"; "elsewhere"; "data"])];
  demo_locked := []
|}.

(** [/r] holds [A.TXT] and [a.txt]. *)
Definition demo_case : Demo := {|
  demo_tree := [File "A.TXT"; File "a.txt"];
  demo_links := [];
  demo_locked := []
|}.



(** * Vocabulary for strings *)

(** Every character of [s] is in the class [p]. *)
Fixpoint all_chars (p : ascii -> bool) (s : string) : bool :=
  match s with
  | EmptyString => true
  | String c s' => p c && all_chars p s'
  end.

Definition first_char (s : string) : option ascii :=
  match s with
  | EmptyString => None
  | String c _ => Some c
  end.

Fixpoint last_char (s : string) : option ascii :=
  match s with
  | EmptyString => None
  | String c s' =>
      match s' with
      | EmptyString => Some c
      | String _ _ => last_char s'
      end
  end.


(** [s] neither begins nor ends with a character of the class [p]. *)
Definition edges_out (p : ascii -> bool) (s : string) : Prop :=
  (forall c, first_char s = Some c -> p c = false)
  /\ (forall c, last_char s = Some c -> p c = false).

(** No plan for a directory comes before a plan for something that is not
    a directory. *)
Definition files_first {S : Snapshot} (plans : list RenamePlan) : Prop :=
  forall a b, before a b plans ->
    is_dir (src a) = true -> is_dir (src b) = false -> False.

(** [demo_args] with one more switch. *)
Definition demo_args_underscore (recursive : bool) : Args := {|
  arg_root := demo_root;
  arg_recursive := recursive;
  arg_dry_run := false;
  arg_yes := true;
  arg_include_hidden := false;
  arg_include_files := false;
  arg_include_dirs := false;
  arg_spaces_to_underscore := true;
  arg_slugify := false;
  arg_lower := false;
  arg_prefix := "";
  arg_suffix := "";
  arg_regex := "";
  arg_to := "";
  arg_no_keep_extension := false;
  arg_prune_dirs := ""
|}.

(** Lower-case whole names, extension included. *)
Definition demo_args_lower : Args := {|
  arg_root := demo_root;
  arg_recursive := false;
  arg_dry_run := false;
  arg_yes := true;
  arg_include_hidden := false;
  arg_include_files := false;
  arg_include_dirs := false;
  arg_spaces_to_underscore := false;
  arg_slugify := false;
  arg_lower := true;
  arg_prefix := "";
  arg_suffix := "";
  arg_regex := "";
  arg_to := "";
  arg_no_keep_extension := true;
  arg_prune_dirs := ""
|}.

(** Spaces to underscores, shown but not executed. *)
Definition demo_args_dry : Args := {|
  arg_root := demo_root;
  arg_recursive := true;
  arg_dry_run := true;
  arg_yes := false;
  arg_include_hidden := false;
  arg_include_files := false;
  arg_include_dirs := false;
  arg_spaces_to_underscore := true;
  arg_slugify := false;
  arg_lower := false;
  arg_prefix := "";
  arg_suffix := "";
  arg_regex := "";
  arg_to := "";
  arg_no_keep_extension := false;
  arg_prune_dirs := ""
|}.

(** [/r] holds one file. *)
Definition demo_single (n : string) : Demo := {|
  demo_tree := [File n];
  demo_links := [];
  demo_locked := []
|}.

Definition demo_report : Path := demo_root / "My Report.PDF".
Definition demo_dotted : Path := demo_root / "My.Report v2.txt".
Definition demo_link : Path := demo_root / "My Link".

(** The plans of the examples. *)
Definition plan_for (n n' : string) : RenamePlan :=
  {| src := demo_root / n; dst := demo_root / n' |}.


(** What the dry run on [demo_nested] returns. *)
Definition demo_dry_run : Run Demo := {|
  exit_code := 0;
  final_world := demo_nested;
  renames := []
|}.

(** * More vocabulary *)

(** No two adjacent characters of [s] are both [c]. *)
Fixpoint no_double (c : ascii) (s : string) : bool :=
  match s with
  | EmptyString => true
  | String a s' =>
      negb (Ascii.eqb a c && bool_decide (first_char s' = Some c))
      && no_double c s'
  end.

(** The separators [slugify_name] trims from both ends. *)
Definition slug_separator (c : ascii) : bool :=
  Ascii.eqb c "_" || Ascii.eqb c "-".

(** The warnings of a builder result. *)
Definition warnings_of (r : result (list RenamePlan * list string))
    : list string :=
  match r with
  | Ok (_, warnings) => warnings
  | Raise _ => []
  end.

(** Induction over a directory tree: a property of every entry follows
    from its proof for files, for links, and for a directory whose entries
    all have it. *)
Fixpoint entry_tree_ind (P : entry -> Prop)
    (HF : forall n, P (File n)) (HL : forall n, P (LinkDir n))
    (HD : forall n children, Forall P children -> P (Folder n children))
    (e : entry) {struct e} : P e :=
  match e with
  | File n => HF n
  | LinkDir n => HL n
  | Folder n children =>
      HD n children
        ((fix all (l : list entry) : Forall P l :=
            match l with
            | [] => @List.Forall_nil _ P
            | x :: l' =>
                @List.Forall_cons _ P x l' (entry_tree_ind P HF HL HD x) (all l')
            end) children)
  end.

Section WalkVocabulary.
Context {S : Snapshot}.

(** The triples the recursive branch iterates over. *)
Definition walk_of (root : Path) (prune_dirs : list string)
    (include_hidden : bool) : list (Path * list string * list string) :=
  match scandir root with
  | Some entries => os_walk prune_dirs include_hidden root entries
  | None => []
  end.

(** Where a plan of the recursive branch comes from: a name listed in one
    of the triples, among the files if files are included or among the
    pruned directories if directories are, that is not hidden unless hidden
    entries are included, and that passed [is_within_root]. *)
Definition from_walk (root : Path)
    (triples : list (Path * list string * list string))
    (include_files include_dirs include_hidden : bool)
    (pl : RenamePlan) : Prop :=
  exists current dirs files n,
    (current, dirs, files) ∈ triples
    /\ src pl = current / n
    /\ ((include_files = true /\ n ∈ files)
        \/ (include_dirs = true /\ n ∈ dirs))
    /\ negb include_hidden && is_hidden_path (src pl) = false
    /\ is_within_root root (src pl) = true.

(** Where a plan of the non recursive branch comes from: an entry listed
    for the root that is not hidden unless hidden entries are included, is
    a directory only if directories are included and a file only if files
    are. *)
Definition from_listing (root : Path)
    (include_files include_dirs include_hidden : bool)
    (pl : RenamePlan) : Prop :=
  (exists entries e,
      scandir root = Some entries /\ e ∈ entries
      /\ src pl = root / entry_name e)
  /\ negb include_hidden && is_hidden_path (src pl) = false
  /\ (is_dir (src pl) = true -> include_dirs = true)
  /\ (is_file (src pl) = true -> include_files = true).

(** A warning of the recursive branch names a path that failed
    [is_within_root]. *)
Definition warns_outside (root : Path) (w : string) : Prop :=
  exists p, w = warn_outside p /\ is_within_root root p = false.
End WalkVocabulary.

(** The directory name [d] survives [prune_dirs_inplace]: it is not one of
    the pruned names and, unless hidden entries are included, does not
    begin with a dot. *)
Definition kept (prune_names : list string) (include_hidden : bool)
    (d : string) : Prop :=
  (d ∉ prune_names)
  /\ (include_hidden = false -> PyStr.startswith "." d = false).

(** An item as [parse_csv_list] returns them: not empty, no white space at
    either end, no comma. *)
Definition csv_item {U : Unicode} (w : string) : Prop :=
  w <> "" /\ edges_out isspace w /\ PyStr.contains "," w = false.

(** * More examples *)

(** CPython's [re.sub] as far as one example needs it: the replacement
    [\] ends in a lone backslash, which the engine rejects with [re.error]
    (bad escape) before it looks at the text. *)
Definition bad_escape_engine : Regex := {|
  re_sub := fun pat repl s =>
    if String.eqb repl "\" then Raise re_error else Ok s;
  re_compiles := fun _ => true
|}.

(** [/r] holds the directory [a b], which holds the directory [c d] with
    the file [x y] and the file [k.txt]; the directory [.git] with
    [HEAD x]; and the directory [node_modules] with [m n.js]. *)
Definition demo_deep : Demo := {|
  demo_tree := [Folder "a b" [Folder "c d" [File "x y"]; File "k.txt"];
                Folder ".git" [File "HEAD x"];
                Folder "node_modules" [File "m n.js"]];
  demo_links := [];
  demo_locked := []
|}.

(** Spaces to underscores, asking before renaming. *)
Definition demo_args_ask : Args := {|
  arg_root := demo_root;
  arg_recursive := true;
  arg_dry_run := false;
  arg_yes := false;
  arg_include_hidden := false;
  arg_include_files := false;
  arg_include_dirs := false;
  arg_spaces_to_underscore := true;
  arg_slugify := false;
  arg_lower := false;
  arg_prefix := "";
  arg_suffix := "";
  arg_regex := "";
  arg_to := "";
  arg_no_keep_extension := false;
  arg_prune_dirs := "tmp, a b/c d"
|}.

(** The plans of the recursive run over [demo_deep]. *)
Definition plan_x_y : RenamePlan :=
  {| src := demo_root / "a b" / "c d" / "x y";
     dst := demo_root / "a b" / "c d" / "x_y" |}.
Definition plan_c_d : RenamePlan :=
  {| src := demo_root / "a b" / "c d"; dst := demo_root / "a b" / "c_d" |}.
Definition plan_a_b : RenamePlan := plan_for "a b" "a_b".

(** * Vocabulary for the executor and for the entries a run considers *)

Section TurnVocabulary.
Context {W : Type} {F : FileSystem W}.

(** [renamed_in_turn w plans log w'] : [log] is what calling [rename] for
    the plans, one after the other and starting from the file system [w],
    gives.  Every plan is paired with what its own call raised, every call
    is made on the file system the call before it left, whatever that call
    raised, and [w'] is the file system after the last call. *)
Inductive renamed_in_turn
    : W -> list RenamePlan -> list (RenamePlan * option exn) -> W -> Prop :=
| turn_done (w : W) : renamed_in_turn w [] [] w
| turn_next (w w1 w' : W) (p : RenamePlan) (plans : list RenamePlan)
    (outcome : option exn) (log : list (RenamePlan * option exn)) :
    rename w (src p) (dst p) = (w1, outcome) ->
    renamed_in_turn w1 plans log w' ->
    renamed_in_turn w (p :: plans) ((p, outcome) :: log) w'.
End TurnVocabulary.


Section ConsideredVocabulary.
Context {S : Snapshot}.



End ConsideredVocabulary.



(** * Properties *)

(** ** Loops and results *)

Lemma bind_Ok {A B : Type} (m : result A) (f : A -> result B) (b : B) :
  m ≫= f = Ok b -> exists a, m = Ok a /\ f a = Ok b.
Proof. destruct m as [a|e]; simpl; [eauto | discriminate]. Qed.

(** A loop invariant holds after [for_each] when every iteration keeps it. *)
Lemma for_each_invariant {A S : Type} (I : S -> Prop)
    (body : S -> A -> result S) (l : list A) :
  (forall s x s', I s -> x ∈ l -> body s x = Ok s' -> I s') ->
  forall s s', I s -> for_each body l s = Ok s' -> I s'.
Proof.
  induction l as [|x l IH]; intros Hbody s s' Hs Hrun; simpl in Hrun.
  - by simplify_eq.
  - apply bind_Ok in Hrun as (s1 & Hx & Hrest).
    eapply IH; [ | | exact Hrest].
    + intros ? ? ? ? ? ?. eapply Hbody; eauto. by right.
    + eapply Hbody; eauto. by left.
Qed.

(** ** Sorting *)

Section SortFacts.
Context {A K : Type} (ltb : K -> K -> bool) (key : A -> K).
Context (le : relation K).
Hypothesis le_trans : Transitive le.
Hypothesis ltb_false : forall a b, ltb a b = false -> le b a.
Hypothesis ltb_true : forall a b, ltb a b = true -> le a b.

Lemma sort_insert_perm x l : sort_insert ltb key x l ≡ₚ x :: l.
Proof.
  induction l as [|y l IH]; simpl; [done|].
  destruct (ltb (key y) (key x)); [|done].
  rewrite IH. apply Permutation_swap.
Qed.

Lemma list_sort_perm l : list_sort ltb key l ≡ₚ l.
Proof.
  induction l as [|x l IH]; simpl; [done|].
  by rewrite sort_insert_perm, IH.
Qed.

(** Stability: elements whose keys [<] does not separate keep the order
    they had in the input. *)
Lemma sort_insert_stable (P : A -> bool) x l :
  (forall a b, P a = true -> P b = true -> ltb (key a) (key b) = false) ->
  List.filter P (sort_insert ltb key x l) = List.filter P (x :: l).
Proof.
  intros Hties. induction l as [|y l IH]; simpl; [done|].
  destruct (ltb (key y) (key x)) eqn:Hlt; simpl; [|done].
  rewrite IH. simpl.
  destruct (P x) eqn:Hx, (P y) eqn:Hy; try done.
  by rewrite (Hties y x) in Hlt.
Qed.

Lemma list_sort_stable (P : A -> bool) l :
  (forall a b, P a = true -> P b = true -> ltb (key a) (key b) = false) ->
  List.filter P (list_sort ltb key l) = List.filter P l.
Proof.
  intros Hties. induction l as [|x l IH]; simpl; [done|].
  rewrite sort_insert_stable by done. simpl. by rewrite IH.
Qed.

Lemma sort_insert_sorted x l :
  StronglySorted (fun a b => le (key a) (key b)) l ->
  StronglySorted (fun a b => le (key a) (key b)) (sort_insert ltb key x l).
Proof using le_trans ltb_false ltb_true.
  induction l as [|y l IH]; intros Hl; simpl.
  - repeat constructor.
  - apply StronglySorted_inv in Hl as [Hl Hy].
    destruct (ltb (key y) (key x)) eqn:Hlt.
    + constructor; [by apply IH|].
      rewrite sort_insert_perm. constructor; [by apply ltb_true | done].
    + apply ltb_false in Hlt.
      constructor; [by constructor|].
      constructor; [done|].
      eapply Forall_impl; [exact Hy|].
      intros z Hz. simpl in Hz. by etrans.
Qed.

Lemma list_sort_sorted l :
  StronglySorted (fun a b => le (key a) (key b)) (list_sort ltb key l).
Proof using le_trans ltb_false ltb_true.
  induction l as [|x l IH]; simpl; [constructor|].
  by apply sort_insert_sorted.
Qed.
End SortFacts.

Lemma string_ltb_false a b : String.ltb a b = false -> String.le b a.
Proof.
  unfold String.ltb, String.le, String.leb.
  rewrite (String.compare_antisym b a).
  by destruct (String.compare a b).
Qed.

Lemma string_ltb_true a b : String.ltb a b = true -> String.le a b.
Proof.
  unfold String.ltb, String.le, String.leb.
  by destruct (String.compare a b).
Qed.

#[global] Instance key_le_trans : Transitive key_le.
Proof.
  intros [[a1 a2] a3] [[b1 b2] b3] [[c1 c2] c3]; unfold key_le; simpl.
  intros [?|[-> [?|[-> Hab]]]] [?|[? [?|[? Hbc]]]]; subst;
    try (left; lia); try (right; split; [done|left; lia]).
  right; split; [done|]. right; split; [done|]. by etrans.
Qed.

Lemma key_ltb_false a b : key_ltb a b = false -> key_le b a.
Proof.
  destruct a as [[a1 a2] a3], b as [[b1 b2] b3]; unfold key_ltb, key_le.
  simpl. destruct (Z.eqb_spec a1 b1) as [->|]; [|intros ?%Z.ltb_ge; lia].
  destruct (Z.eqb_spec a2 b2) as [->|].
  - intros ?%string_ltb_false. auto.
  - intros ?%Z.ltb_ge. right; split; [done|]. left; lia.
Qed.

Lemma key_ltb_true a b : key_ltb a b = true -> key_le a b.
Proof.
  destruct a as [[a1 a2] a3], b as [[b1 b2] b3]; unfold key_ltb, key_le.
  simpl. destruct (Z.eqb_spec a1 b1) as [->|]; [|intros ?%Z.ltb_lt; lia].
  destruct (Z.eqb_spec a2 b2) as [->|].
  - intros ?%string_ltb_true. auto.
  - intros ?%Z.ltb_lt. right; split; [done|]. left; lia.
Qed.

(** ** The plan builder: what every plan satisfies *)

Section BuilderFacts.
Context {U : Unicode} {R : Regex} {S : Snapshot}.
Variables (spaces_to_underscore slugify lower : bool)
          (prefix suffix : string)
          (regex_pattern regex_to : option string)
          (no_keep_extension : bool).

Local Abbreviation Planned :=
  (planned spaces_to_underscore slugify lower prefix suffix regex_pattern
     regex_to no_keep_extension).
Local Abbreviation PlanEntry :=
  (plan_entry spaces_to_underscore slugify lower prefix suffix
     regex_pattern regex_to no_keep_extension).
Local Abbreviation Build :=
  (build_rename_plans spaces_to_underscore slugify lower prefix suffix
     regex_pattern regex_to no_keep_extension).

Lemma plan_entry_cases plans p plans' :
  PlanEntry plans p = Ok plans' ->
  plans' = plans
  \/ exists pl, plans' = plans ++ [pl] /\ src pl = p /\ Planned pl.
Proof.
  unfold plan_entry. intros Hrun.
  apply bind_Ok in Hrun as (n & Hn & Hrun).
  destruct (String.eqb_spec n (PathLib.name p)) as [->|Hne].
  - left. by simplify_eq.
  - apply bind_Ok in Hrun as (d & Hd & Hrun). simplify_eq.
    right. eexists; split; [done|]. split; [done|].
    exists n. by repeat split.
Qed.

Lemma plan_entry_keeps (P : RenamePlan -> Prop) plans p plans' :
  (forall pl, src pl = p -> Planned pl -> P pl) ->
  Forall P plans ->
  PlanEntry plans p = Ok plans' ->
  Forall P plans'.
Proof.
  intros HP Hall [->|(pl & -> & Hsrc & Hpl)]%plan_entry_cases; [done|].
  apply Forall_app; split; [done|]. constructor; [|constructor]. auto.
Qed.

(** Non recursive branch: the loop only ever appends what [plan_entry]
    appends. *)
Lemma flat_plans_planned root include_files include_dirs include_hidden
    prune_dirs :
  Forall Planned
    (plans_of (Build root false include_files include_dirs include_hidden
                 prune_dirs)).
Proof.
  unfold build_rename_plans; simpl.
  destruct (iterdir (resolve root)) as [entries|e]; simpl; [|constructor].
  destruct (for_each _ entries []) as [plans|e] eqn:Hloop; simpl;
    [|constructor].
  rewrite list_sort_perm.
  revert Hloop.
  apply (for_each_invariant (Forall Planned)); [|constructor].
  intros s x s' Hs _. unfold flat_body.
  repeat case_match; intros; simplify_eq; try done.
  by eapply plan_entry_keeps.
Qed.

(** Recursive branch: in addition every planned source passed the
    [is_within_root] test. *)
Lemma walk_body_keeps root current include_hidden st n st' :
  Forall (fun pl => Planned pl
                    /\ is_within_root root (src pl) = true) st.1 ->
  walk_body spaces_to_underscore slugify lower prefix suffix regex_pattern
    regex_to no_keep_extension root current include_hidden st n = Ok st' ->
  Forall (fun pl => Planned pl
                    /\ is_within_root root (src pl) = true) st'.1.
Proof.
  intros Hst. unfold walk_body.
  destruct (negb include_hidden && is_hidden_path (current / n));
    [by intros; simplify_eq|].
  destruct (is_within_root root (current / n)) eqn:Hin; simpl;
    [|by intros; simplify_eq].
  intros (plans & Hplans & ?)%bind_Ok; simplify_eq; simpl.
  eapply plan_entry_keeps; [|exact Hst|exact Hplans].
  by intros pl -> ?.
Qed.

Lemma walk_plans_planned root include_files include_dirs include_hidden
    prune_dirs :
  Forall (fun pl => Planned pl
                    /\ is_within_root (resolve root) (src pl) = true)
    (plans_of (Build root true include_files include_dirs include_hidden
                 prune_dirs)).
Proof.
  set (I := fun st : list RenamePlan * list string =>
              Forall (fun pl => Planned pl
                 /\ is_within_root (resolve root) (src pl) = true) st.1).
  unfold build_rename_plans; simpl.
  match goal with
  | |- context [for_each ?b ?l ?s] =>
      destruct (for_each b l s) as [st|e] eqn:Hloop
  end; simpl; [|constructor].
  rewrite list_sort_perm. change (I st).
  revert Hloop. apply (for_each_invariant I); [|constructor].
  intros s [[current dirs] files] s' Hs _. unfold walk_step.
  intros (s1 & Hfiles & Hdirs)%bind_Ok.
  assert (I s1) as Hs1.
  { destruct include_files; [|by simplify_eq].
    revert Hfiles. apply (for_each_invariant I); [|done].
    intros ? ? ? ? _. by apply walk_body_keeps. }
  destruct include_dirs; [|by simplify_eq].
  revert Hdirs. apply (for_each_invariant I); [|done].
  intros ? ? ? ? _. by apply walk_body_keeps.
Qed.

Lemma build_plans_planned root recursive include_files include_dirs
    include_hidden prune_dirs :
  Forall Planned
    (plans_of (Build root recursive include_files include_dirs
                 include_hidden prune_dirs)).
Proof.
  destruct recursive.
  - eapply Forall_impl; [apply walk_plans_planned|]. by intros ? [? _].
  - apply flat_plans_planned.
Qed.
End BuilderFacts.

(** ** Paths *)

Lemma parent_snoc (q : Path) (n : string) :
  q <> [] -> PathLib.parent (q ++ [n]) = q.
Proof.
  intros Hq. destruct q as [|a q]; [done|].
  assert (PathLib.parent ((a :: q) ++ [n]) = removelast ((a :: q) ++ [n]))
    as ->.
  { destruct q; reflexivity. }
  apply removelast_last.
Qed.

Lemma name_snoc (q : Path) (n : string) :
  q <> [] -> PathLib.name (q ++ [n]) = n.
Proof.
  intros Hq. destruct q as [|a q]; [done|].
  assert (PathLib.name ((a :: q) ++ [n])
          = default "" (last ((a :: q) ++ [n]))) as ->.
  { destruct q; reflexivity. }
  by rewrite last_snoc.
Qed.

Lemma valid_name_not_anchor (n : string) :
  PathLib.valid_name n = true -> n <> "/".
Proof. by intros Hn ->. Qed.

(** [with_name] replaces the last part and nothing else. *)
Lemma with_name_Ok (p : Path) (n : string) (d : Path) :
  PathLib.with_name p n = Ok d ->
  PathLib.valid_name n = true
  /\ d = PathLib.parent p / n
  /\ PathLib.parent d = PathLib.parent p
  /\ PathLib.name d = n.
Proof.
  unfold PathLib.with_name.
  destruct (PyStr.truthy (PathLib.name p)) eqn:Hname; simpl; [|done].
  destruct (PathLib.valid_name n) eqn:Hn; simpl; [|done].
  intros [= <-]. split; [done|].
  destruct p as [|a [|b l]].
  - done.
  - simpl in *. destruct (String.eqb_spec a "/") as [->|Ha]; [done|].
    unfold PathLib.joinpath; simpl.
    destruct (String.eqb_spec n "/") as [->|Hn']; [done|]. done.
  - assert (PathLib.parent (a :: b :: l) = removelast (a :: b :: l)) as ->
      by done.
    assert (removelast (a :: b :: l) <> []) as Hq by done.
    unfold PathLib.joinpath.
    by rewrite parent_snoc, name_snoc.
Qed.


(** ** The order of the plans *)

Lemma sorted_before {A : Type} (Rel : relation A) (l : list A) (a b : A) :
  StronglySorted Rel l -> a ∈ l -> b ∈ l -> a <> b -> ~ Rel b a ->
  before a b l.
Proof.
  intros Hl Ha Hb Hab Hnot.
  apply list_elem_of_split in Hb as (l1 & l2 & ->).
  apply StronglySorted_app in Hl as (_ & Hl1 & Hl2).
  apply StronglySorted_inv in Hl2 as [_ Hb].
  apply elem_of_app in Ha as [Ha|Ha].
  - apply list_elem_of_split in Ha as (l1a & l1b & ->).
    exists l1a, l1b, l2. by rewrite <- app_assoc.
  - apply elem_of_cons in Ha as [->|Ha]; [done|].
    rewrite Forall_forall in Hb. destruct Hnot. auto.
Qed.

Lemma StronglySorted_weaken {A : Type} (R1 R2 : relation A) (l : list A) :
  (forall a b, R1 a b -> R2 a b) ->
  StronglySorted R1 l -> StronglySorted R2 l.
Proof.
  intros Himp. induction 1 as [|a l Hl IH Ha]; constructor; [done|].
  eapply Forall_impl; [exact Ha|]. auto.
Qed.

Section OrderFacts.
Context {U : Unicode} {R : Regex} {S : Snapshot}.
Variables (spaces_to_underscore slugify lower : bool)
          (prefix suffix : string)
          (regex_pattern regex_to : option string)
          (no_keep_extension : bool).

Local Abbreviation Build :=
  (build_rename_plans spaces_to_underscore slugify lower prefix suffix
     regex_pattern regex_to no_keep_extension).

Lemma sort_key_le (a b : RenamePlan) :
  key_le (sort_key a) (sort_key b) <-> recursive_order a b.
Proof.
  unfold key_le, sort_key, recursive_order, flat_key; simpl.
  destruct (is_dir (src a)), (is_dir (src b)); naive_solver lia.
Qed.

Lemma walk_plans_sorted root include_files include_dirs include_hidden
    prune_dirs :
  StronglySorted recursive_order
    (plans_of (Build root true include_files include_dirs include_hidden
                 prune_dirs)).
Proof.
  unfold build_rename_plans; simpl.
  match goal with
  | |- context [for_each ?b ?l ?s] => destruct (for_each b l s) as [st|e]
  end; simpl; [|constructor].
  eapply StronglySorted_weaken;
    [|apply (list_sort_sorted key_ltb sort_key key_le);
      auto using key_ltb_false, key_ltb_true with typeclass_instances].
  intros a b. apply sort_key_le.
Qed.

Lemma flat_plans_sorted root include_files include_dirs include_hidden
    prune_dirs :
  StronglySorted flat_order
    (plans_of (Build root false include_files include_dirs include_hidden
                 prune_dirs)).
Proof.
  unfold build_rename_plans; simpl.
  destruct (iterdir (resolve root)) as [entries|e]; simpl; [|constructor].
  destruct (for_each _ entries []) as [plans|e]; simpl; [|constructor].
  apply (list_sort_sorted String.ltb flat_key String.le);
    auto using string_ltb_false, string_ltb_true with typeclass_instances.
Qed.
End OrderFacts.

(** ** The conflict detector *)

Section DetectorFacts.
Context {S : Snapshot}.

Lemma target_exists_true (p : RenamePlan) :
  target_exists p = true
  <-> path_exists (dst p) = true /\ resolve (dst p) <> resolve (src p).
Proof.
  unfold target_exists.
  rewrite andb_true_iff, negb_true_iff, bool_decide_eq_false. done.
Qed.

Lemma collides_Some seen p first :
  collides seen p = Some first <->
  seen !! dst_key p = Some first
  /\ PathLib.str (resolve first) <> src_key p.
Proof.
  unfold collides. destruct (seen !! dst_key p) as [s|]; [|naive_solver].
  destruct (String.eqb_spec (PathLib.str (resolve s)) (src_key p));
    naive_solver.
Qed.

Lemma collides_None seen p :
  collides seen p = None <->
  forall s, seen !! dst_key p = Some s ->
            PathLib.str (resolve s) = src_key p.
Proof.
  unfold collides. destruct (seen !! dst_key p) as [s|]; [|naive_solver].
  destruct (String.eqb_spec (PathLib.str (resolve s)) (src_key p));
    naive_solver.
Qed.

Lemma detect_invariant_step processed st p :
  detect_invariant processed st ->
  detect_invariant (processed ++ [p]) (detect_step st p).
Proof.
  destruct st as [errors seen]. intros (HA & HB & HC).
  assert ((destination_collision processed
              \/ target_exists_collision processed) ->
           destination_collision (processed ++ [p])
           \/ target_exists_collision (processed ++ [p])) as Hmono.
  { intros [(a & b & ? & ? & ?)|(a & ? & ?)]; [left|right].
    - exists a, b. rewrite !elem_of_app. naive_solver.
    - exists a. rewrite elem_of_app. naive_solver. }
  unfold detect_step.
  destruct (collides seen p) as [first|] eqn:Hcol.
  - apply collides_Some in Hcol as [Hseen Hne].
    assert (destination_collision (processed ++ [p])) as Hdc.
    { destruct (HA _ _ Hseen) as (q & Hq & <- & Hk).
      exists p, q. rewrite !elem_of_app, list_elem_of_singleton.
      naive_solver. }
    split; [|split]; simpl.
    + intros k s Hk. destruct (HA k s Hk) as (q & ? & ? & ?).
      exists q. rewrite elem_of_app. naive_solver.
    + by destruct (target_exists p), errors.
    + auto.
  - rewrite collides_None in Hcol.
    split; [|split]; simpl.
    + intros k s.
      destruct (decide (dst_key p = k)) as [<-|Hk].
      * rewrite lookup_insert_eq. intros [= <-].
        exists p. rewrite elem_of_app, list_elem_of_singleton. auto.
      * rewrite lookup_insert_ne by done. intros Hs.
        destruct (HA k s Hs) as (q & ? & ? & ?).
        exists q. rewrite elem_of_app. naive_solver.
    + destruct (target_exists p) eqn:Hte; [by destruct errors|].
      intros ->. destruct (HB eq_refl) as [HB1 HB2].
      split; intros q [Hq| ->%list_elem_of_singleton]%elem_of_app;
        auto.
      * destruct (decide (dst_key p = dst_key q)) as [Heq|Hk].
        -- rewrite <- Heq, lookup_insert_eq. eexists; split; [done|].
           destruct (HB1 q Hq) as (s & Hs & <-).
           rewrite <- Heq in Hs. symmetry. by apply Hcol.
        -- rewrite lookup_insert_ne by done. auto.
      * rewrite lookup_insert_eq. eauto.
    + destruct (target_exists p) eqn:Hte.
      * intros _. right. exists p.
        rewrite elem_of_app, list_elem_of_singleton.
        apply target_exists_true in Hte. naive_solver.
      * intros Herr. apply Hmono. auto.
Qed.

Lemma detect_invariant_run plans :
  detect_invariant plans (fold_left detect_step plans ([], ∅)).
Proof.
  induction plans as [|p plans IH] using rev_ind.
  - split; [|split]; simpl; [| |done].
    + intros k s. by rewrite lookup_empty.
    + intros _. split; intros p Hp; by apply elem_of_nil in Hp.
  - rewrite fold_left_app. simpl. by apply detect_invariant_step.
Qed.

Lemma detect_conflicts_spec plans :
  detect_conflicts plans <> [] <->
  destination_collision plans \/ target_exists_collision plans.
Proof.
  unfold detect_conflicts.
  destruct (detect_invariant_run plans) as (_ & HB & HC).
  split; [exact HC|].
  intros Hconf Herr. destruct (HB Herr) as [HB1 HB2].
  destruct Hconf as [(p & q & Hp & Hq & Hne & Hk)|(p & Hp & Hex & Hne)].
  - destruct (HB1 p Hp) as (s & Hs & Hsp).
    destruct (HB1 q Hq) as (s' & Hs' & Hsq).
    rewrite Hk in Hs. rewrite Hs in Hs'. simplify_eq. congruence.
  - assert (target_exists p = true) by by apply target_exists_true.
    specialize (HB2 p Hp). congruence.
Qed.
End DetectorFacts.

(** ** The executor *)

Section ExecutorFacts.
Context {W : Type} {F : FileSystem W}.




End ExecutorFacts.

(** ** The run *)

Section MainFacts.
Context {U : Unicode} {R : Regex} {W : Type} {F : FileSystem W}.

(** The ways [main] returns. *)
Lemma main_cases (w : W) (stdin : string) (args : Args) (r : Run W) :
  main w stdin args = Ok r ->
  (final_world r = w /\ renames r = [])
  \/ exists plans warnings,
       main_plans w args = Ok (plans, warnings)
       /\ plans <> []
       /\ detect_conflicts (S := snapshot w) plans = []
       /\ arg_dry_run args = false
       /\ final_world r = world (execute_plans w plans)
       /\ renames r = attempts (execute_plans w plans)
       /\ exit_code r
          = if (err_count (execute_plans w plans) =? 0)%nat
            then 0%Z else 4%Z.
Proof.
  unfold main.
  destruct (bad_regex args); [intros [= <-]; by left|].
  destruct (main_plans w args) as [[plans warnings]|e]; simpl; [|done].
  destruct plans as [|p plans]; [intros [= <-]; by left|].
  destruct (detect_conflicts (p :: plans)) eqn:Hdet;
    [|intros [= <-]; by left].
  destruct (arg_dry_run args); [intros [= <-]; by left|].
  match goal with
  | |- context [if ?c then _ else _] => destruct c
  end; [intros [= <-]; by left|].
  intros [= <-]. right. exists (p :: plans), warnings. by repeat split.
Qed.

(** A reported conflict ends the run at once. *)
Lemma main_conflict (w : W) (stdin : string) (args : Args) plans warnings :
  main_plans w args = Ok (plans, warnings) ->
  detect_conflicts (S := snapshot w) plans <> [] ->
  main w stdin args
  = Ok {| exit_code := if bad_regex args then 2%Z else 3%Z;
          final_world := w; renames := [] |}.
Proof.
  intros Hplans Hdet. unfold main.
  destruct (bad_regex args); [done|].
  rewrite Hplans. simpl.
  destruct plans as [|p plans]; [done|].
  by destruct (detect_conflicts (p :: plans)).
Qed.

(** A dry run leaves the file system alone. *)
Lemma main_dry_run (w : W) (stdin : string) (args : Args) (r : Run W) :
  arg_dry_run args = true ->
  main w stdin args = Ok r ->
  final_world r = w /\ renames r = [].
Proof.
  intros Hdry [?|(plans & ws & _ & _ & _ & Hno & _)]%main_cases; [done|].
  congruence.
Qed.
End MainFacts.

(** ** Strings *)

Lemma append_nil_l (s : string) : "" +:+ s = s.
Proof. reflexivity. Qed.

Lemma append_cons (a : ascii) (s t : string) :
  String a s +:+ t = String a (s +:+ t).
Proof. reflexivity. Qed.

Section StripFacts.
Variable p : ascii -> bool.

Lemma lstrip_first s c :
  first_char (PyStr.lstrip p s) = Some c -> p c = false.
Proof.
  induction s as [|a s IH]; simpl; [done|].
  destruct (p a) eqn:Ha; [done|]. simpl. by intros [= <-].
Qed.


Lemma rstrip_last s c :
  last_char (PyStr.rstrip p s) = Some c -> p c = false.
Proof.
  induction s as [|a s IH]; simpl; [done|].
  destruct (PyStr.rstrip p s) as [|b r] eqn:Hr.
  - destruct (p a) eqn:Ha; [done|]. simpl. by intros [= <-].
  - simpl in *. done.
Qed.

Lemma rstrip_first s :
  PyStr.rstrip p s <> "" ->
  first_char (PyStr.rstrip p s) = first_char s.
Proof.
  destruct s as [|a s]; simpl; [done|].
  destruct (PyStr.rstrip p s); [|done]. by destruct (p a).
Qed.


Lemma lstrip_all s : all_chars p s = true -> PyStr.lstrip p s = "".
Proof.
  induction s as [|a s IH]; simpl; [done|].
  intros [-> ?]%andb_true_iff. auto.
Qed.


Lemma strip_edges s : edges_out p (PyStr.strip p s).
Proof.
  unfold PyStr.strip. split; intros c Hc.
  - destruct (decide (PyStr.rstrip p (PyStr.lstrip p s) = "")) as [He|He].
    + by rewrite He in Hc.
    + rewrite rstrip_first in Hc by done. by eapply lstrip_first.
  - by eapply rstrip_last.
Qed.

Lemma strip_all s : all_chars p s = true -> PyStr.strip p s = "".
Proof. intros Hs. unfold PyStr.strip. by rewrite lstrip_all. Qed.

End StripFacts.

Lemma length_append (a b : string) :
  String.length (a +:+ b) = String.length a + String.length b.
Proof.
  induction a as [|c a IH]; [done|].
  rewrite append_cons. simpl. by rewrite IH.
Qed.




(** * The claims *)

Section Claims.
Context {U : Unicode} {R : Regex}.

(** C8.  Every plan the builder returns, in recursive and in non
    recursive mode, keeps the entry in its directory: the parent of the
    destination is the parent of the source, the destination is that
    parent joined with a new last component, and only that component
    differs. *)
Theorem plans_stay_in_directory {S : Snapshot}
    (spaces_to_underscore slugify lower : bool) (prefix suffix : string)
    (regex_pattern regex_to : option string) (no_keep_extension : bool)
    (root : Path)
    (recursive include_files include_dirs include_hidden : bool)
    (prune_dirs : list string) :
  Forall
    (fun pl =>
       PathLib.parent (dst pl) = PathLib.parent (src pl)
       /\ dst pl = PathLib.parent (src pl) / PathLib.name (dst pl)
       /\ PathLib.name (dst pl) <> PathLib.name (src pl))
    (plans_of
       (build_rename_plans spaces_to_underscore slugify lower prefix
          suffix regex_pattern regex_to no_keep_extension root recursive
          include_files include_dirs include_hidden prune_dirs)).
Proof.
  eapply Forall_impl; [apply build_plans_planned|].
  intros pl (n & _ & Hne & Hd). simpl.
  apply with_name_Ok in Hd as (_ & Hdst & Hparent & Hname).
  rewrite Hname. by repeat split.
Qed.

(** C5.  A plan is emitted only when the new name differs from the
    original one: no plan the builder returns, in either mode, has a
    source whose computed name equals its name.  The builder only reads
    the file system, so after a run that executes nothing (a dry run) it
    returns the same plans again. *)
Theorem unchanged_names_are_not_planned :
  (forall (S : Snapshot)
      (spaces_to_underscore slugify lower : bool) (prefix suffix : string)
      (regex_pattern regex_to : option string) (no_keep_extension : bool)
      (root : Path)
      (recursive include_files include_dirs include_hidden : bool)
      (prune_dirs : list string) (p : Path),
      new_name_of spaces_to_underscore slugify lower prefix suffix
        regex_pattern regex_to no_keep_extension p
      = Ok (PathLib.name p) ->
      forall pl,
        pl ∈ plans_of
               (build_rename_plans spaces_to_underscore slugify lower
                  prefix suffix regex_pattern regex_to no_keep_extension
                  root recursive include_files include_dirs include_hidden
                  prune_dirs) ->
        src pl <> p)
  /\ (forall (W : Type) (F : FileSystem W) (w : W) (stdin : string)
        (args : Args) (r : Run W),
        arg_dry_run args = true ->
        main w stdin args = Ok r ->
        renames r = []
        /\ main_plans (final_world r) args = main_plans w args).
Proof.
  split.
  - intros S s2u sl lo pre suf rp rt nke root rec inf ind inh pr p Hsame
      pl Hpl Heq. subst p.
    pose proof (build_plans_planned s2u sl lo pre suf rp rt nke root rec
                  inf ind inh pr) as Hall.
    rewrite Forall_forall in Hall.
    destruct (Hall pl Hpl) as (n & Hn & Hne & _).
    rewrite Hn in Hsame. congruence.
  - intros W F w stdin args r Hdry Hrun.
    destruct (main_dry_run w stdin args r Hdry Hrun) as [-> ->]. done.
Qed.

(** C1.  For the plans the builder hands to [main], the report of
    [detect_conflicts] is non-empty exactly when two plans with different
    canonical sources share a canonical destination, or the destination
    of some plan exists and does not resolve to the plan's own source;
    and when the report is non-empty [main] returns at once: no rename is
    attempted and the file system is untouched. *)
Theorem conflicts_reported_and_terminal {W : Type} {F : FileSystem W}
    (w : W) (stdin : string) (args : Args)
    (plans : list RenamePlan) (warnings : list string)
    (Hplans : main_plans w args = Ok (plans, warnings)) :
  (detect_conflicts (S := snapshot w) plans <> []
   <-> destination_collision (S := snapshot w) plans
       \/ target_exists_collision (S := snapshot w) plans)
  /\ (detect_conflicts (S := snapshot w) plans <> [] ->
      main w stdin args
      = Ok {| exit_code := if bad_regex args then 2%Z else 3%Z;
              final_world := w; renames := [] |}).
Proof.
  split; [apply detect_conflicts_spec|].
  intros Hdet. by eapply main_conflict.
Qed.

End Claims.

Section MoreClaims.
Context {U : Unicode} {R : Regex}.

(** C2, as the code has it.  In recursive mode the returned plans are
    sorted by the key [(is_dir, -depth, lower-cased source)]: plans whose
    source is not a directory come before plans whose source is one;
    within each kind, sources with more parts come first; equal depths are
    ordered by the lower-cased source text.  So a planned file is always
    renamed before a planned directory, in particular before the
    directory that contains it.  In non recursive mode the plans are
    sorted by the lower-cased source text alone. *)
Theorem plan_order_by_mode {S : Snapshot}
    (spaces_to_underscore slugify lower : bool) (prefix suffix : string)
    (regex_pattern regex_to : option string) (no_keep_extension : bool)
    (root : Path) (include_files include_dirs include_hidden : bool)
    (prune_dirs : list string) :
  let plans_in recursive :=
    plans_of
      (build_rename_plans spaces_to_underscore slugify lower prefix suffix
         regex_pattern regex_to no_keep_extension root recursive
         include_files include_dirs include_hidden prune_dirs) in
  StronglySorted recursive_order (plans_in true)
  /\ StronglySorted flat_order (plans_in false)
  /\ (forall pf pX,
        pf ∈ plans_in true -> pX ∈ plans_in true ->
        is_dir (src pf) = false -> is_dir (src pX) = true ->
        before pf pX (plans_in true)).
Proof.
  intros plans_in.
  split; [apply walk_plans_sorted|]. split; [apply flat_plans_sorted|].
  intros pf pX Hpf HpX Hf HX.
  eapply sorted_before; [apply walk_plans_sorted|done..| |].
  - intros ->. congruence.
  - unfold recursive_order. rewrite Hf, HX. naive_solver.
Qed.
End MoreClaims.

Section NeutralPipeline.
Context {U : Unicode} {R : Regex}.

Lemma neutral_transform (n : string) (regex_to : option string)
    (keep_extension : bool) :
  apply_transformations n false false false "" "" None regex_to
    keep_extension
  = Ok (neutral n).
Proof. reflexivity. Qed.



End NeutralPipeline.

(** ** The pattern stage *)

Section RegexFacts.
Context {U : Unicode} {R : Regex}.

(** The stage hands the pattern and the replacement text to [re.sub]
    unchanged; [re.error] leaves the name as it was, and any other
    exception of the engine leaves [apply_transformations]. *)
Lemma regex_stage_cases (pat : string) (regex_to : option string)
    (name : string) :
  PyStr.truthy pat = true ->
  regex_stage (Some pat) regex_to name
  = match re_sub pat (or_empty regex_to) name with
    | Ok s => Ok s
    | Raise re_error => Ok name
    | Raise e => Raise e
    end.
Proof. intros Hpat. unfold regex_stage. by rewrite Hpat. Qed.

Lemma apply_transformations_raises (name : string)
    (spaces_to_underscore slugify lower : bool) (prefix suffix : string)
    (regex_pattern regex_to : option string) (keep_extension : bool)
    (e : exn) :
  apply_transformations name spaces_to_underscore slugify lower prefix
    suffix regex_pattern regex_to keep_extension = Raise e ->
  e <> re_error
  /\ exists pat,
       regex_pattern = Some pat
       /\ re_sub pat (or_empty regex_to) name = Raise e.
Proof.
  unfold apply_transformations, regex_stage.
  destruct regex_pattern as [pat|]; [|done].
  destruct (PyStr.truthy pat); [|done].
  destruct (re_sub pat (or_empty regex_to) name) as [s|[]] eqn:Hsub;
    simpl; try done; intros [= <-]; split; try done; eauto.
Qed.

(** An exception of the engine that is not [re.error] is not caught. *)
Lemma engine_exception_escapes (name : string)
    (spaces_to_underscore slugify lower : bool) (prefix suffix : string)
    (pat : string) (regex_to : option string) (keep_extension : bool)
    (e : exn) :
  PyStr.truthy pat = true ->
  re_sub pat (or_empty regex_to) name = Raise e ->
  e <> re_error ->
  apply_transformations name spaces_to_underscore slugify lower prefix
    suffix (Some pat) regex_to keep_extension = Raise e.
Proof.
  intros Hpat Hsub He. unfold apply_transformations, regex_stage.
  rewrite Hpat, Hsub. by destruct e.
Qed.

(** The flag [keep_extension] has no effect on the result. *)
Lemma apply_transformations_keep_extension (name : string)
    (spaces_to_underscore slugify lower : bool) (prefix suffix : string)
    (regex_pattern regex_to : option string) (k1 k2 : bool) :
  apply_transformations name spaces_to_underscore slugify lower prefix
    suffix regex_pattern regex_to k1
  = apply_transformations name spaces_to_underscore slugify lower prefix
      suffix regex_pattern regex_to k2.
Proof. reflexivity. Qed.
End RegexFacts.

(** * The claims on concrete runs *)

Section Examples.
#[local] Existing Instance ascii_tables.
#[local] Existing Instance no_regex.

(** C9, as stated: with slugify and lower-casing on and nothing else, the
    new name of ["My Report.PDF"] is not ["my_report.PDF"]; the space
    becomes a hyphen. *)
Lemma report_gets_hyphen :
  compute_new_name_for_path
    (S := demo_snapshot (demo_single "My Report.PDF"))
    false true true "" "" None None false demo_report
  = Ok "my-report.PDF"
  /\ compute_new_name_for_path
       (S := demo_snapshot (demo_single "My Report.PDF"))
       false true true "" "" None None false demo_report
     <> Ok "my_report.PDF".
Proof. split; [vm_compute; reflexivity|vm_compute; congruence]. Qed.

(** C9, as the code has it.  For the file ["My Report.PDF"] with
    extension preservation on and slugify, lower-casing and
    space-to-underscore enabled, the stem ["My Report"] becomes
    ["my_report"] and the new name is ["my_report.PDF"], the extension
    untouched. *)
Theorem report_with_underscore :
  PathLib.stem demo_report = "My Report"
  /\ PathLib.suffix demo_report = ".PDF"
  /\ apply_transformations "My Report" true true true "" "" None None true
     = Ok "my_report"
  /\ compute_new_name_for_path
       (S := demo_snapshot (demo_single "My Report.PDF"))
       true true true "" "" None None false demo_report
     = Ok "my_report.PDF".
Proof. repeat split; vm_compute; reflexivity. Qed.

(** C3, on the code.  The file ["My.Report v2.txt"] with slugify on and
    its extension preserved: the pipeline runs on the stem
    ["My.Report v2"], [slugify_name] is called with [keep_dots] true all
    the same, and the dot of the stem survives.  With [keep_dots] false
    the stem would lose it. *)
Theorem stem_keeps_its_dot :
  PathLib.stem demo_dotted = "My.Report v2"
  /\ is_file (Snapshot := demo_snapshot (demo_single "My.Report v2.txt"))
       demo_dotted = true
  /\ apply_transformations "My.Report v2" false true false "" "" None None
       true
     = Ok "My.Report-v2"
  /\ compute_new_name_for_path
       (S := demo_snapshot (demo_single "My.Report v2.txt"))
       false true false "" "" None None false demo_dotted
     = Ok "My.Report-v2.txt"
  /\ slugify_name "My.Report v2" false false false = "MyReport-v2".
Proof. repeat split; vm_compute; reflexivity. Qed.

(** C4, on the code.  The pattern [(a)] compiles, so the early validation
    of [main] lets it through; with the replacement [\g<x>] the engine
    raises [IndexError], [except re.error] does not catch it, and neither
    [apply_transformations] nor [main] returns. *)
Theorem unknown_group_name_escapes :
  bad_regex (R := named_group_engine) demo_args_named_group = false
  /\ apply_transformations (R := named_group_engine) "a" false false false
       "" "" (Some "(a)") (Some "\g<x>") true
     = Raise IndexError
  /\ main (R := named_group_engine) (demo_single "a") ""
       demo_args_named_group
     = Raise IndexError.
Proof. repeat split; vm_compute; reflexivity. Qed.

(** C6, on the code.  [/r] holds [My Link], a symbolic link that resolves
    to [/elsewhere/data].  The recursive branch leaves it out and warns;
    the non recursive branch never calls [is_within_root]: it plans the
    link and warns about nothing. *)
Theorem flat_mode_plans_escaping_link :
  is_within_root (S := demo_snapshot demo_escape) demo_root demo_link
  = false
  /\ main_plans demo_escape (demo_args_underscore true)
     = Ok ([plan_for "in side.txt" "in_side.txt"],
           ["ignorado (fora do root): /r/My Link"])
  /\ main_plans demo_escape (demo_args_underscore false)
     = Ok ([plan_for "in side.txt" "in_side.txt";
            plan_for "My Link" "My_Link"], []).
Proof. repeat split; vm_compute; reflexivity. Qed.

(** C2, as stated: in non recursive mode the plan for the directory
    [a b] comes before the plan for the file [c d.txt]. *)
Lemma flat_mode_directory_first :
  plans_of (main_plans demo_nested (demo_args_underscore false))
  = [plan_for "a b" "a_b"; plan_for "c d.txt" "c_d.txt"]
  /\ ~ files_first (S := demo_snapshot demo_nested)
         (plans_of (main_plans demo_nested (demo_args_underscore false))).
Proof.
  assert (plans_of (main_plans demo_nested (demo_args_underscore false))
          = [plan_for "a b" "a_b"; plan_for "c d.txt" "c_d.txt"]) as ->
    by (vm_compute; reflexivity).
  split; [done|]. intros Hff.
  apply (Hff (plan_for "a b" "a_b") (plan_for "c d.txt" "c_d.txt")).
  - by exists [], [], [].
  - vm_compute; reflexivity.
  - vm_compute; reflexivity.
Qed.


(** [plan_order_by_mode] at the recursive run over [demo_nested]: the
    file [a b/x y.txt] is renamed before the directory [a b]. *)
Lemma plan_order_witness :
  let plans :=
    plans_of
      (build_rename_plans (S := demo_snapshot demo_nested)
         true false false "" "" None None false demo_root true true true
         false DEFAULT_PRUNE_DIRS) in
  let pf := {| src := demo_root / "a b" / "x y.txt";
               dst := demo_root / "a b" / "x_y.txt" |} in
  let pX := plan_for "a b" "a_b" in
  pf ∈ plans /\ pX ∈ plans
  /\ is_dir (Snapshot := demo_snapshot demo_nested) (src pf) = false
  /\ is_dir (Snapshot := demo_snapshot demo_nested) (src pX) = true
  /\ before pf pX plans.
Proof.
  intros plans pf pX.
  assert (plans = [pf; plan_for "c d.txt" "c_d.txt"; pX]) as Hplans
    by (vm_compute; reflexivity).
  assert (pf ∈ plans) as Hpf by (rewrite Hplans; apply list_elem_of_here).
  assert (pX ∈ plans) as HpX
    by (rewrite Hplans; do 2 apply list_elem_of_further;
        apply list_elem_of_here).
  assert (is_dir (Snapshot := demo_snapshot demo_nested) (src pf) = false)
    as Hf by (vm_compute; reflexivity).
  assert (is_dir (Snapshot := demo_snapshot demo_nested) (src pX) = true)
    as HX by (vm_compute; reflexivity).
  repeat (split; [assumption|]).
  exact (proj2 (proj2 (plan_order_by_mode (S := demo_snapshot demo_nested)
                         true false false "" "" None None false demo_root
                         true true false DEFAULT_PRUNE_DIRS))
           pf pX Hpf HpX Hf HX).
Defined.

(** [unchanged_names_are_not_planned] at the run that lower-cases
    [demo_case]: [a.txt] keeps its name and is the source of no plan; and
    at the dry run over [demo_nested]. *)
Lemma unchanged_names_witness :
  (new_name_of (S := demo_snapshot demo_case)
     false false true "" "" None (Some "") true (demo_root / "a.txt")
   = Ok (PathLib.name (demo_root / "a.txt"))
   /\ plan_for "A.TXT" "a.txt"
      ∈ plans_of
          (build_rename_plans (S := demo_snapshot demo_case)
             false false true "" "" None (Some "") true demo_root false
             true true false DEFAULT_PRUNE_DIRS)
   /\ src (plan_for "A.TXT" "a.txt") <> demo_root / "a.txt")
  /\ (arg_dry_run demo_args_dry = true
      /\ main demo_nested "" demo_args_dry = Ok demo_dry_run
      /\ renames demo_dry_run = []
      /\ main_plans (final_world demo_dry_run) demo_args_dry
         = main_plans demo_nested demo_args_dry).
Proof.
  assert (new_name_of (S := demo_snapshot demo_case)
            false false true "" "" None (Some "") true (demo_root / "a.txt")
          = Ok (PathLib.name (demo_root / "a.txt"))) as Hsame
    by (vm_compute; reflexivity).
  assert (plan_for "A.TXT" "a.txt"
          ∈ plans_of
              (build_rename_plans (S := demo_snapshot demo_case)
                 false false true "" "" None (Some "") true demo_root
                 false true true false DEFAULT_PRUNE_DIRS)) as Hin.
  { assert (plans_of
              (build_rename_plans (S := demo_snapshot demo_case)
                 false false true "" "" None (Some "") true demo_root
                 false true true false DEFAULT_PRUNE_DIRS)
            = [plan_for "A.TXT" "a.txt"]) as ->
      by (vm_compute; reflexivity).
    apply list_elem_of_here. }
  assert (main demo_nested "" demo_args_dry = Ok demo_dry_run) as Hrun
    by (vm_compute; reflexivity).
  split.
  - repeat (split; [assumption|]).
    exact (proj1 unchanged_names_are_not_planned _ _ _ _ _ _ _ _ _ _ _ _
             _ _ _ _ Hsame _ Hin).
  - split; [reflexivity|]. split; [assumption|].
    exact (proj2 unchanged_names_are_not_planned Demo demo_fs demo_nested
             "" demo_args_dry demo_dry_run eq_refl Hrun).
Defined.

(** [conflicts_reported_and_terminal] at the run that lower-cases
    [demo_case]: [A.TXT] would become [a.txt], which exists. *)
Lemma conflicts_witness :
  main_plans demo_case demo_args_lower
  = Ok ([plan_for "A.TXT" "a.txt"], [])
  /\ (detect_conflicts (S := demo_snapshot demo_case)
        [plan_for "A.TXT" "a.txt"] <> []
      <-> destination_collision (S := demo_snapshot demo_case)
            [plan_for "A.TXT" "a.txt"]
          \/ target_exists_collision (S := demo_snapshot demo_case)
               [plan_for "A.TXT" "a.txt"])
  /\ detect_conflicts (S := demo_snapshot demo_case)
       [plan_for "A.TXT" "a.txt"] <> []
  /\ main demo_case "" demo_args_lower
     = Ok {| exit_code := 3; final_world := demo_case; renames := [] |}.
Proof.
  assert (main_plans demo_case demo_args_lower
          = Ok ([plan_for "A.TXT" "a.txt"], [])) as Hplans
    by (vm_compute; reflexivity).
  assert (detect_conflicts (S := demo_snapshot demo_case)
            [plan_for "A.TXT" "a.txt"] <> []) as Hdet
    by (vm_compute; discriminate).
  split; [assumption|].
  destruct (conflicts_reported_and_terminal demo_case "" demo_args_lower
              _ _ Hplans) as [Hiff Hstop].
  split; [exact Hiff|]. split; [assumption|]. exact (Hstop Hdet).
Defined.

End Examples.

(** * Further properties of the code *)

(** ** Character classes through the string operations *)

Section CharFacts.
Variable q : ascii -> bool.

Lemma all_chars_app (s t : string) :
  all_chars q (s +:+ t) = all_chars q s && all_chars q t.
Proof.
  induction s as [|a s IH]; [done|].
  rewrite append_cons. simpl. by rewrite IH, andb_assoc.
Qed.

Lemma all_chars_filter_same (s : string) :
  all_chars q (PyStr.filter q s) = true.
Proof.
  induction s as [|a s IH]; simpl; [done|].
  destruct (q a) eqn:Ha; simpl; [by rewrite Ha|done].
Qed.

Lemma all_chars_filter (p : ascii -> bool) (s : string) :
  all_chars q s = true -> all_chars q (PyStr.filter p s) = true.
Proof.
  induction s as [|a s IH]; simpl; [done|].
  intros [Ha Hs]%andb_true_iff.
  destruct (p a); simpl; [rewrite Ha|]; auto.
Qed.

Lemma all_chars_collapse (c : ascii) (s : string) :
  all_chars q s = true -> all_chars q (PyStr.collapse c s) = true.
Proof.
  induction s as [|a s IH]; simpl; [done|].
  intros [Ha Hs]%andb_true_iff.
  destruct s as [|b s]; [by simpl; rewrite Ha|].
  destruct (Ascii.eqb a c && Ascii.eqb b c); [by apply IH|].
  change (q a && all_chars q (PyStr.collapse c (String b s)) = true).
  rewrite Ha. by apply IH.
Qed.

Lemma all_chars_lstrip (p : ascii -> bool) (s : string) :
  all_chars q s = true -> all_chars q (PyStr.lstrip p s) = true.
Proof.
  induction s as [|a s IH]; simpl; [done|].
  intros [Ha Hs]%andb_true_iff.
  destruct (p a); [auto|]. simpl. by rewrite Ha.
Qed.

Lemma all_chars_rstrip (p : ascii -> bool) (s : string) :
  all_chars q s = true -> all_chars q (PyStr.rstrip p s) = true.
Proof.
  induction s as [|a s IH]; simpl; [done|].
  intros [Ha Hs]%andb_true_iff. specialize (IH Hs).
  destruct (PyStr.rstrip p s) as [|b r].
  - destruct (p a); [done|]. simpl. by rewrite Ha.
  - change (q a && all_chars q (String b r) = true). by rewrite Ha.
Qed.

Lemma all_chars_strip (p : ascii -> bool) (s : string) :
  all_chars q s = true -> all_chars q (PyStr.strip p s) = true.
Proof. intros Hs. by apply all_chars_rstrip, all_chars_lstrip. Qed.

Lemma all_chars_impl (q' : ascii -> bool) (s : string) :
  (forall c, q c = true -> q' c = true) ->
  all_chars q s = true -> all_chars q' s = true.
Proof.
  intros Himp. induction s as [|a s IH]; simpl; [done|].
  intros [Ha Hs]%andb_true_iff. rewrite (Himp a Ha). auto.
Qed.

Lemma filter_id (s : string) :
  all_chars q s = true -> PyStr.filter q s = s.
Proof.
  induction s as [|a s IH]; simpl; [done|].
  intros [-> Hs]%andb_true_iff. by rewrite IH.
Qed.
End CharFacts.

Lemma replace_id (a b : ascii) (s : string) :
  PyStr.contains a s = false -> PyStr.replace a b s = s.
Proof.
  induction s as [|c s IH]; simpl; [done|].
  intros [Hc Hs]%orb_false_iff. rewrite Hc. by rewrite IH.
Qed.

Lemma contains_all_chars (a : ascii) (q : ascii -> bool) (s : string) :
  q a = false -> all_chars q s = true -> PyStr.contains a s = false.
Proof.
  intros Hq. induction s as [|c s IH]; simpl; [done|].
  intros [Hc Hs]%andb_true_iff. rewrite (IH Hs), orb_false_r.
  destruct (Ascii.eqb_spec c a) as [->|]; congruence.
Qed.

(** ** Doubled separators *)

Lemma first_char_collapse (c : ascii) (s : string) :
  first_char (PyStr.collapse c s) = first_char s.
Proof.
  induction s as [|a s IH]; simpl; [done|].
  destruct s as [|b s]; [done|].
  destruct (Ascii.eqb a c && Ascii.eqb b c) eqn:Hab; [|done].
  rewrite IH. simpl.
  apply andb_true_iff in Hab as [->%Ascii.eqb_eq ->%Ascii.eqb_eq]. done.
Qed.

Lemma no_double_collapse (c : ascii) (s : string) :
  no_double c (PyStr.collapse c s) = true.
Proof.
  induction s as [|a s IH]; simpl; [done|].
  destruct s as [|b s]; [by simpl; rewrite andb_false_r|].
  destruct (Ascii.eqb a c && Ascii.eqb b c) eqn:Hab; [done|].
  change (negb (Ascii.eqb a c
                && bool_decide
                     (first_char (PyStr.collapse c (String b s)) = Some c))
          && no_double c (PyStr.collapse c (String b s)) = true).
  rewrite IH, first_char_collapse, andb_true_r. simpl.
  destruct (Ascii.eqb a c); [|done]. simpl in *.
  apply negb_true_iff, bool_decide_eq_false. intros [= ->].
  by rewrite Ascii.eqb_refl in Hab.
Qed.

Lemma no_double_collapse_other (c d : ascii) (s : string) :
  no_double c s = true -> no_double c (PyStr.collapse d s) = true.
Proof.
  induction s as [|a s IH]; simpl; [done|].
  intros [Ha Hs]%andb_true_iff. specialize (IH Hs).
  destruct s as [|b s]; [by simpl; rewrite andb_false_r|].
  destruct (Ascii.eqb a d && Ascii.eqb b d) eqn:Hab; [done|].
  change (negb (Ascii.eqb a c
                && bool_decide
                     (first_char (PyStr.collapse d (String b s)) = Some c))
          && no_double c (PyStr.collapse d (String b s)) = true).
  by rewrite IH, first_char_collapse, andb_true_r.
Qed.

Lemma no_double_lstrip (c : ascii) (p : ascii -> bool) (s : string) :
  no_double c s = true -> no_double c (PyStr.lstrip p s) = true.
Proof.
  induction s as [|a s IH]; simpl; [done|].
  intros [Ha Hs]%andb_true_iff.
  destruct (p a); [auto|]. simpl. by rewrite Ha, Hs.
Qed.

Lemma no_double_rstrip (c : ascii) (p : ascii -> bool) (s : string) :
  no_double c s = true -> no_double c (PyStr.rstrip p s) = true.
Proof.
  induction s as [|a s IH]; simpl; [done|].
  intros [Ha Hs]%andb_true_iff. specialize (IH Hs).
  destruct (PyStr.rstrip p s) as [|b r] eqn:Hr.
  - destruct (p a); [done|]. simpl. by rewrite andb_false_r.
  - change (negb (Ascii.eqb a c && bool_decide (Some b = Some c))
            && no_double c (String b r) = true).
    rewrite IH, andb_true_r.
    assert (first_char s = Some b) as Hb.
    { rewrite <- (rstrip_first p s) by (by rewrite Hr). by rewrite Hr. }
    by rewrite Hb in Ha.
Qed.

Lemma collapse_id (c : ascii) (s : string) :
  no_double c s = true -> PyStr.collapse c s = s.
Proof.
  induction s as [|a s IH]; simpl; [done|].
  intros [Ha Hs]%andb_true_iff. specialize (IH Hs).
  destruct s as [|b s]; [done|].
  destruct (Ascii.eqb a c && Ascii.eqb b c) eqn:Hab.
  - apply andb_true_iff in Hab as [Hac ->%Ascii.eqb_eq].
    simpl in Ha. rewrite Hac in Ha. simpl in Ha.
    by rewrite bool_decide_eq_true_2 in Ha.
  - by rewrite IH.
Qed.

(** ** What [strip] leaves alone *)

Lemma lstrip_id (p : ascii -> bool) (s : string) :
  (forall c, first_char s = Some c -> p c = false) -> PyStr.lstrip p s = s.
Proof.
  destruct s as [|a s]; simpl; [done|]. intros Hf. by rewrite (Hf a).
Qed.

Lemma rstrip_id (p : ascii -> bool) (s : string) :
  (forall c, last_char s = Some c -> p c = false) -> PyStr.rstrip p s = s.
Proof.
  induction s as [|a s IH]; simpl; [done|]. intros Hl.
  destruct s as [|b s].
  - simpl. by rewrite (Hl a).
  - rewrite IH by done. done.
Qed.

Lemma strip_id (p : ascii -> bool) (s : string) :
  edges_out p s -> PyStr.strip p s = s.
Proof.
  intros [Hf Hl]. unfold PyStr.strip. rewrite lstrip_id by done.
  by apply rstrip_id.
Qed.

(** ** [slugify_name] *)

Section SlugFacts.
Context {U : Unicode}.

Lemma slugify_name_cases (name : string) (lower s2u keep_dots : bool) :
  slugify_name name lower s2u keep_dots = "item"
  \/ exists s,
       slugify_name name lower s2u keep_dots
       = PyStr.strip slug_separator
           (PyStr.collapse "-"
              (PyStr.collapse "_" (PyStr.filter (slug_allowed keep_dots) s)))
       /\ slugify_name name lower s2u keep_dots <> "".
Proof.
  unfold slugify_name.
  match goal with
  | |- context [PyStr.truthy ?t] => destruct t as [|a t'] eqn:Ht
  end; simpl; [by left|].
  right. eexists. split; [|done]. rewrite <- Ht. reflexivity.
Qed.

Lemma slug_alphabet (name : string)
    (lower spaces_to_underscore keep_dots : bool) :
  slugify_name name lower spaces_to_underscore keep_dots <> ""
  /\ all_chars (slug_allowed keep_dots)
       (slugify_name name lower spaces_to_underscore keep_dots) = true.
Proof.
  destruct (slugify_name_cases name lower spaces_to_underscore keep_dots)
    as [->|(s & -> & Hne)].
  - split; [done|]. by destruct keep_dots.
  - split; [done|].
    apply all_chars_strip, all_chars_collapse, all_chars_collapse,
      all_chars_filter_same.
Qed.

(** The result of [slugify_name] is never empty and is written in the
    alphabet [a-zA-Z0-9_-], with the dot when [keep_dots]. *)
Theorem slugify_name_alphabet (name : string)
    (lower spaces_to_underscore keep_dots : bool) :
  slugify_name name lower spaces_to_underscore keep_dots <> ""
  /\ all_chars (slug_allowed keep_dots)
       (slugify_name name lower spaces_to_underscore keep_dots) = true.
Proof. apply slug_alphabet. Qed.

Lemma slug_separators (name : string)
    (lower spaces_to_underscore keep_dots : bool) :
  edges_out slug_separator
    (slugify_name name lower spaces_to_underscore keep_dots)
  /\ no_double "_" (slugify_name name lower spaces_to_underscore keep_dots)
     = true
  /\ no_double "-" (slugify_name name lower spaces_to_underscore keep_dots)
     = true.
Proof.
  destruct (slugify_name_cases name lower spaces_to_underscore keep_dots)
    as [->|(s & -> & Hne)].
  - split; [|done]. split; intros c [= <-]; reflexivity.
  - split; [apply strip_edges|].
    split; unfold PyStr.strip.
    + apply no_double_rstrip, no_double_lstrip, no_double_collapse_other,
        no_double_collapse.
    + apply no_double_rstrip, no_double_lstrip, no_double_collapse.
Qed.

(** The result of [slugify_name] neither begins nor ends with an
    underscore or a hyphen, and holds no two underscores and no two hyphens
    in a row. *)
Theorem slugify_name_separators (name : string)
    (lower spaces_to_underscore keep_dots : bool) :
  edges_out slug_separator
    (slugify_name name lower spaces_to_underscore keep_dots)
  /\ no_double "_" (slugify_name name lower spaces_to_underscore keep_dots)
     = true
  /\ no_double "-" (slugify_name name lower spaces_to_underscore keep_dots)
     = true.
Proof. apply slug_separators. Qed.

(** Slugifying a slug changes nothing, whatever the flags of the second
    call (with the same [keep_dots]), as long as the Unicode builtins leave
    the slug alone: no accent to strip and, if the second call lower-cases,
    nothing to lower-case. *)
Theorem slugify_name_idempotent (name : string)
    (lower spaces_to_underscore keep_dots : bool)
    (lower' spaces_to_underscore' : bool) :
  let r := slugify_name name lower spaces_to_underscore keep_dots in
  strip_accents r = r ->
  (lower' = true -> str_lower r = r) ->
  slugify_name r lower' spaces_to_underscore' keep_dots = r.
Proof.
  intros r Hacc Hlow.
  destruct (slug_alphabet name lower spaces_to_underscore keep_dots)
    as [Hne Hall].
  destruct (slug_separators name lower spaces_to_underscore
              keep_dots) as (Hedges & Hu & Hh).
  fold r in Hne, Hall, Hedges, Hu, Hh. clearbody r.
  unfold slugify_name. rewrite Hacc.
  assert ((if lower' then str_lower r else r) = r) as ->
    by (destruct lower'; auto).
  assert (PyStr.contains " " r = false) as Hsp.
  { eapply contains_all_chars; [|exact Hall]. by destruct keep_dots. }
  assert ((if spaces_to_underscore'
           then PyStr.replace " " "_" r else PyStr.replace " " "-" r) = r)
    as -> by (destruct spaces_to_underscore'; by apply replace_id).
  rewrite filter_id, (collapse_id "_" r), (collapse_id "-" r) by done.
  change (fun c : ascii => Ascii.eqb c "_" || Ascii.eqb c "-")
    with slug_separator.
  rewrite strip_id by done. by destruct r.
Qed.
End SlugFacts.

(** ** Extensions *)

Lemma rfind_None (c : ascii) (s : string) :
  PyStr.rfind c s = None <-> PyStr.contains c s = false.
Proof.
  induction s as [|a s IH]; simpl; [done|].
  destruct (PyStr.rfind c s) as [i|].
  - split; [done|]. intros [_ Hs]%orb_false_iff. apply IH in Hs. done.
  - destruct IH as [IH _]. rewrite (IH eq_refl), orb_false_r.
    by destruct (Ascii.eqb a c).
Qed.

Lemma rfind_Some (c : ascii) (s : string) (i : nat) :
  PyStr.rfind c s = Some i ->
  exists t, PyStr.drop i s = String c t /\ PyStr.contains c t = false.
Proof.
  revert i. induction s as [|a s IH]; intros i; simpl; [done|].
  destruct (PyStr.rfind c s) as [j|] eqn:Hj.
  - intros [= <-]. simpl. by apply IH.
  - destruct (Ascii.eqb_spec a c) as [->|]; [|done].
    intros [= <-]. simpl. exists s. split; [done|]. by apply rfind_None.
Qed.

Lemma rfind_app (c : ascii) (a t : string) :
  PyStr.contains c t = false ->
  PyStr.rfind c (a +:+ String c t) = Some (String.length a).
Proof.
  intros Ht. induction a as [|x a IH].
  - rewrite append_nil_l. simpl.
    apply rfind_None in Ht. by rewrite Ht, Ascii.eqb_refl.
  - rewrite append_cons. simpl. by rewrite IH.
Qed.

Lemma drop_app (a b : string) : PyStr.drop (String.length a) (a +:+ b) = b.
Proof. induction a as [|x a IH]; [by destruct b|]. by rewrite append_cons. Qed.

Lemma length_drop (i : nat) (s : string) :
  String.length (PyStr.drop i s) = String.length s - i.
Proof.
  revert s. induction i as [|i IH]; intros [|a s]; simpl; auto with lia.
Qed.

(** A suffix is a dot followed by at least one character, none of them a
    dot. *)
Lemma suffix_shape (p : Path) :
  PathLib.suffix p <> "" ->
  exists t, PathLib.suffix p = String "." t
            /\ t <> "" /\ PyStr.contains "." t = false.
Proof.
  unfold PathLib.suffix, PathLib.suffix_index.
  destruct (PyStr.rfind "." (PathLib.name p)) as [i|] eqn:Hi; [|done].
  destruct (0 <? i) eqn:H0; simpl; [|done].
  destruct (i <? String.length (PathLib.name p) - 1) eqn:Hlt; [|done].
  intros _. apply rfind_Some in Hi as (t & Ht & Hdot).
  exists t. split; [done|]. split; [|done].
  apply Nat.ltb_lt in Hlt.
  pose proof (length_drop i (PathLib.name p)) as Hlen.
  rewrite Ht in Hlen. simpl in Hlen. destruct t; [simpl in Hlen; lia|done].
Qed.

(** Putting a suffix behind a non-empty stem gives a name with that
    suffix. *)
Lemma suffix_of_append (q : Path) (stem t : string) :
  q <> [] -> stem <> "" -> t <> "" -> PyStr.contains "." t = false ->
  PathLib.suffix (q / (stem +:+ String "." t)) = String "." t.
Proof.
  intros Hq Hstem Ht Hdot.
  unfold PathLib.suffix, PathLib.joinpath. rewrite name_snoc by done.
  unfold PathLib.suffix_index. rewrite rfind_app by done.
  assert (0 < String.length stem) by (destruct stem; [done|simpl; lia]).
  assert (0 < String.length t) by (destruct t; [done|simpl; lia]).
  assert ((0 <? String.length stem)
          && (String.length stem
              <? String.length (stem +:+ String "." t) - 1) = true) as ->.
  { rewrite length_append. simpl.
    apply andb_true_iff; split; [apply Nat.ltb_lt|apply Nat.ltb_lt]; lia. }
  apply drop_app.
Qed.

(** ** The transform and the new name *)

Lemma neutral_nonempty {U : Unicode} (x : string) : neutral x <> "".
Proof. unfold neutral. by destruct (PyStr.strip isspace x) eqn:Hx. Qed.

Lemma neutral_shape {U : Unicode} (x : string) :
  neutral x = "item" \/ edges_out isspace (neutral x).
Proof.
  unfold neutral. destruct (PyStr.strip isspace x) eqn:Hx; [by left|].
  right. simpl. rewrite <- Hx. apply strip_edges.
Qed.

Lemma neutral_idempotent {U : Unicode} (x : string) :
  PyStr.strip isspace "item" = "item" -> neutral (neutral x) = neutral x.
Proof.
  intros Hitem. destruct (neutral_shape x) as [->|Hedges].
  - unfold neutral. by rewrite Hitem.
  - pose proof (neutral_nonempty x) as Hne.
    unfold neutral at 1. rewrite strip_id by done.
    by destruct (neutral x).
Qed.

Section TransformFacts.
Context {U : Unicode} {R : Regex}.

(** The last stage decides the shape of every result. *)
Lemma apply_transformations_Ok (name : string)
    (spaces_to_underscore slugify lower : bool) (prefix suffix : string)
    (regex_pattern regex_to : option string) (keep_extension : bool)
    (n : string) :
  apply_transformations name spaces_to_underscore slugify lower prefix
    suffix regex_pattern regex_to keep_extension = Ok n ->
  exists x, n = neutral x.
Proof.
  unfold apply_transformations.
  intros (x & _ & Hn)%bind_Ok. injection Hn as <-. eexists. reflexivity.
Qed.

(** Whatever the options, a name returned by [apply_transformations] is
    not empty and is either the fallback ["item"] or free of white space at
    both ends; the name computed for a path is not empty either. *)
Theorem new_name_never_empty :
  (forall (name : string) (spaces_to_underscore slugify lower : bool)
      (prefix suffix : string) (regex_pattern regex_to : option string)
      (keep_extension : bool) (n : string),
      apply_transformations name spaces_to_underscore slugify lower prefix
        suffix regex_pattern regex_to keep_extension = Ok n ->
      n <> "" /\ (n = "item" \/ edges_out isspace n))
  /\ (forall (S : Snapshot) (spaces_to_underscore slugify lower : bool)
        (prefix suffix : string) (regex_pattern regex_to : option string)
        (no_keep_extension : bool) (p : Path) (n : string),
        new_name_of spaces_to_underscore slugify lower prefix suffix
          regex_pattern regex_to no_keep_extension p = Ok n ->
        n <> "").
Proof.
  split.
  - intros name s2u sl lo pre suf rp rt ke n (x & ->)%apply_transformations_Ok.
    split; [apply neutral_nonempty|apply neutral_shape].
  - intros S s2u sl lo pre suf rp rt nke p n.
    unfold new_name_of, compute_new_name_for_path.
    destruct (is_file p && negb nke).
    + intros (m & (x & ->)%apply_transformations_Ok & [= <-])%bind_Ok.
      pose proof (neutral_nonempty x). by destruct (neutral x).
    + intros (x & ->)%apply_transformations_Ok. apply neutral_nonempty.
Qed.

(** With every option off the transform is idempotent: run on its own
    result it returns that result, provided the fallback name has no white
    space at its ends. *)
Theorem neutral_transform_idempotent (name : string)
    (regex_to : option string) (keep_extension : bool) (n : string) :
  PyStr.strip isspace "item" = "item" ->
  apply_transformations name false false false "" "" None regex_to
    keep_extension = Ok n ->
  apply_transformations n false false false "" "" None regex_to
    keep_extension = Ok n.
Proof.
  intros Hitem. rewrite !neutral_transform. intros [= <-].
  by rewrite neutral_idempotent.
Qed.

(** A replacement the engine rejects with [re.error], like an empty
    pattern, is passed over in silence: the result is the one of the same
    run with no pattern. *)
Theorem rejected_replacement_is_ignored (name : string)
    (spaces_to_underscore slugify lower : bool) (prefix suffix : string)
    (pat : string) (regex_to : option string) (keep_extension : bool) :
  PyStr.truthy pat = false
  \/ re_sub pat (or_empty regex_to) name = Raise re_error ->
  apply_transformations name spaces_to_underscore slugify lower prefix
    suffix (Some pat) regex_to keep_extension
  = apply_transformations name spaces_to_underscore slugify lower prefix
      suffix None regex_to keep_extension.
Proof.
  unfold apply_transformations, regex_stage.
  intros [->|Herr]; [done|]. rewrite Herr. by destruct (PyStr.truthy pat).
Qed.
End TransformFacts.

Section ExtensionFacts.
Context {U : Unicode} {R : Regex} {S : Snapshot}.

Lemma suffix_of_name (d : Path) (stem t : string) :
  PathLib.name d = stem +:+ String "." t ->
  stem <> "" -> t <> "" -> PyStr.contains "." t = false ->
  PathLib.suffix d = String "." t.
Proof.
  intros Hname Hstem Ht Hdot.
  unfold PathLib.suffix. rewrite Hname.
  unfold PathLib.suffix_index. rewrite rfind_app by done.
  assert (0 < String.length stem) by (destruct stem; [done|simpl; lia]).
  assert (0 < String.length t) by (destruct t; [done|simpl; lia]).
  assert ((0 <? String.length stem)
          && (String.length stem
              <? String.length (stem +:+ String "." t) - 1) = true) as ->.
  { rewrite length_append. simpl.
    apply andb_true_iff; split; apply Nat.ltb_lt; lia. }
  apply drop_app.
Qed.

(** With extension preservation on, every plan for a file that has an
    extension keeps it: the destination has the suffix of the source, in
    recursive and in non recursive mode. *)
Theorem extension_is_preserved
    (spaces_to_underscore slugify lower : bool) (prefix suffix : string)
    (regex_pattern regex_to : option string) (root : Path)
    (recursive include_files include_dirs include_hidden : bool)
    (prune_dirs : list string) :
  Forall
    (fun pl =>
       is_file (src pl) = true -> PathLib.suffix (src pl) <> "" ->
       PathLib.suffix (dst pl) = PathLib.suffix (src pl))
    (plans_of
       (build_rename_plans spaces_to_underscore slugify lower prefix
          suffix regex_pattern regex_to false root recursive
          include_files include_dirs include_hidden prune_dirs)).
Proof.
  eapply Forall_impl; [apply build_plans_planned|].
  intros pl (n & Hn & _ & Hd) Hfile Hsuf. simpl in *.
  apply with_name_Ok in Hd as (_ & _ & _ & Hname).
  unfold new_name_of, compute_new_name_for_path in Hn.
  rewrite Hfile in Hn. simpl in Hn.
  apply bind_Ok in Hn as (m & (x & ->)%apply_transformations_Ok & [= <-]).
  destruct (suffix_shape (src pl) Hsuf) as (t & Ht & Hne & Hdot).
  rewrite Ht in *.
  eapply suffix_of_name; [done| |done..]. apply neutral_nonempty.
Qed.
End ExtensionFacts.

(** ** Where plans and warnings come from *)

Section ProvenanceFacts.
Context {U : Unicode} {R : Regex} {S : Snapshot}.
Variables (spaces_to_underscore slugify lower : bool)
          (prefix suffix : string)
          (regex_pattern regex_to : option string)
          (no_keep_extension : bool).

Local Abbreviation Planned :=
  (planned spaces_to_underscore slugify lower prefix suffix regex_pattern
     regex_to no_keep_extension).
Local Abbreviation Build :=
  (build_rename_plans spaces_to_underscore slugify lower prefix suffix
     regex_pattern regex_to no_keep_extension).

(** One entry of the recursive loops is skipped, reported, or planned. *)
Lemma walk_body_cases root current include_hidden st n st' :
  walk_body spaces_to_underscore slugify lower prefix suffix regex_pattern
    regex_to no_keep_extension root current include_hidden st n = Ok st' ->
  st' = st
  \/ (st' = (st.1, st.2 ++ [warn_outside (current / n)])
      /\ is_within_root root (current / n) = false)
  \/ exists pl,
       st' = (st.1 ++ [pl], st.2)
       /\ src pl = current / n /\ Planned pl
       /\ negb include_hidden && is_hidden_path (current / n) = false
       /\ is_within_root root (current / n) = true.
Proof.
  unfold walk_body.
  destruct (negb include_hidden && is_hidden_path (current / n)) eqn:Hhid;
    [intros [= <-]; by left|].
  destruct (is_within_root root (current / n)) eqn:Hin; simpl;
    [|intros [= <-]; right; by left].
  intros (plans & Hplans & [= <-])%bind_Ok.
  apply plan_entry_cases in Hplans as [->|(pl & -> & Hsrc & Hpl)].
  - left. by destruct st.
  - right; right. exists pl. by repeat split.
Qed.

(** One entry of the non recursive loop is skipped or planned. *)
Lemma flat_body_cases include_files include_dirs include_hidden plans p
    plans' :
  flat_body spaces_to_underscore slugify lower prefix suffix regex_pattern
    regex_to no_keep_extension include_files include_dirs include_hidden
    plans p = Ok plans' ->
  plans' = plans
  \/ exists pl,
       plans' = plans ++ [pl] /\ src pl = p /\ Planned pl
       /\ negb include_hidden && is_hidden_path p = false
       /\ (is_dir p = true -> include_dirs = true)
       /\ (is_file p = true -> include_files = true).
Proof.
  unfold flat_body.
  destruct (negb include_hidden && is_hidden_path p) eqn:Hhid;
    [intros [= <-]; by left|].
  destruct (is_dir p && negb include_dirs) eqn:Hd;
    [intros [= <-]; by left|].
  destruct (is_file p && negb include_files) eqn:Hf;
    [intros [= <-]; by left|].
  intros [->|(pl & -> & Hsrc & Hpl)]%plan_entry_cases; [by left|].
  right. exists pl. repeat split; try done.
  - intros Hp. rewrite Hp in Hd. by destruct include_dirs.
  - intros Hp. rewrite Hp in Hf. by destruct include_files.
Qed.

Lemma flat_provenance root include_files include_dirs include_hidden
    prune_dirs :
  Forall (from_listing (resolve root) include_files include_dirs
            include_hidden)
    (plans_of (Build root false include_files include_dirs include_hidden
                 prune_dirs))
  /\ warnings_of (Build root false include_files include_dirs
                    include_hidden prune_dirs) = [].
Proof.
  unfold build_rename_plans, iterdir; simpl.
  destruct (scandir (resolve root)) as [entries|] eqn:Hscan; simpl;
    [|by split].
  destruct (for_each _ _ []) as [plans|e] eqn:Hloop; simpl; [|by split].
  split; [|done]. rewrite list_sort_perm. revert Hloop.
  apply (for_each_invariant
           (Forall (from_listing (resolve root) include_files include_dirs
                      include_hidden))); [|constructor].
  intros s p s' Hs Hp
    [->|(pl & -> & Hsrc & _ & Hhid & Hd & Hf)]%flat_body_cases; [done|].
  apply Forall_app; split; [done|]. constructor; [|constructor].
  apply list_elem_of_fmap in Hp as (e & -> & He).
  unfold from_listing. rewrite Hsrc. repeat split; try done.
  by exists entries, e.
Qed.

Lemma walk_provenance root include_files include_dirs include_hidden
    prune_dirs :
  Forall (from_walk (resolve root)
            (walk_of (resolve root) prune_dirs include_hidden)
            include_files include_dirs include_hidden)
    (plans_of (Build root true include_files include_dirs include_hidden
                 prune_dirs))
  /\ Forall (warns_outside (resolve root))
       (warnings_of (Build root true include_files include_dirs
                       include_hidden prune_dirs)).
Proof.
  set (triples := walk_of (resolve root) prune_dirs include_hidden).
  set (I := fun st : list RenamePlan * list string =>
              Forall (from_walk (resolve root) triples include_files
                        include_dirs include_hidden) st.1
              /\ Forall (warns_outside (resolve root)) st.2).
  unfold build_rename_plans; simpl. fold (walk_of (resolve root) prune_dirs
                                            include_hidden). fold triples.
  destruct (for_each _ triples ([], [])) as [st|e] eqn:Hloop; simpl;
    [|by split].
  rewrite list_sort_perm. change (I st). revert Hloop.
  apply (for_each_invariant I); [|by split].
  intros s [[current dirs] files] s' Hs Hin. unfold walk_step.
  intros (s1 & Hfiles & Hdirs)%bind_Ok.
  assert (forall (names : list string) (flag : bool) s0 s0',
             (forall n, n ∈ names ->
                (include_files = true /\ n ∈ files)
                \/ (include_dirs = true /\ n ∈ dirs)) ->
             I s0 ->
             for_each (walk_body spaces_to_underscore slugify lower prefix
                         suffix regex_pattern regex_to no_keep_extension
                         (resolve root) current include_hidden) names s0
             = Ok s0' -> I s0') as Hloop.
  { intros names _ s0 s0' Hnames Hs0. apply (for_each_invariant I); [|done].
    intros t0 n t1 [Hp Hw] Hn
      [->|[[-> Hout]|(pl & -> & Hsrc & _ & Hhid & Hroot)]]%walk_body_cases;
      [done| |]; split; simpl; try done.
    - apply Forall_app; split; [done|]. constructor; [|constructor].
      by eexists.
    - apply Forall_app; split; [done|]. constructor; [|constructor].
      exists current, dirs, files, n. rewrite Hsrc. repeat split; auto. }
  assert (I s1) as Hs1.
  { destruct include_files eqn:Hif; [|by simplify_eq].
    eapply (Hloop files true); [|done..]. auto. }
  destruct include_dirs eqn:Hid; [|by simplify_eq].
  eapply (Hloop dirs true); [|done..]. auto.
Qed.

(** What [os.walk] yields lies below the top through directories that
    survived the pruning, and the directories it lists have survived it
    too. *)
Lemma walk_below_kept prune_names include_hidden (e : entry) :
  forall top,
    Forall (fun t =>
              (exists rel, t.1.1 = top ++ rel
                 /\ Forall (fun d => prune_keep prune_names include_hidden d
                                     = true) rel)
              /\ Forall (fun d => prune_keep prune_names include_hidden d
                                  = true) t.1.2)
      (walk_below prune_names include_hidden top e).
Proof.
  induction e as [n|n|n children IH] using entry_tree_ind; intros top;
    simpl; [constructor..|].
  destruct (prune_keep prune_names include_hidden n) eqn:Hn; [|constructor].
  constructor.
  - simpl. split.
    + exists [n]. split; [done|]. by repeat constructor.
    + unfold prune_dirs_inplace. apply Forall_forall.
      intros d Hd. apply list_elem_of_In, filter_In in Hd. tauto.
  - apply Forall_flat_map. rewrite Forall_forall in IH.
    apply Forall_forall. intros x Hx.
    eapply Forall_impl; [apply (IH x Hx (top / n))|].
    intros t [(rel & Ht & Hrel) Hdirs]. split; [|done].
    exists (n :: rel). unfold PathLib.joinpath in Ht.
    rewrite <- app_assoc in Ht. split; [done|]. by constructor.
Qed.

Lemma os_walk_kept prune_names include_hidden top entries :
  Forall (fun t =>
            (exists rel, t.1.1 = top ++ rel
               /\ Forall (fun d => prune_keep prune_names include_hidden d
                                   = true) rel)
            /\ Forall (fun d => prune_keep prune_names include_hidden d
                                = true) t.1.2)
    (os_walk prune_names include_hidden top entries).
Proof.
  unfold os_walk. constructor.
  - simpl. split.
    + exists []. by rewrite app_nil_r.
    + unfold prune_dirs_inplace. apply Forall_forall.
      intros d Hd. apply list_elem_of_In, filter_In in Hd. tauto.
  - apply Forall_flat_map, Forall_forall. intros x _.
    apply walk_below_kept.
Qed.
End ProvenanceFacts.

(** ** What the builder leaves out *)

Lemma prune_keep_kept (prune_names : list string) (include_hidden : bool)
    (d : string) :
  prune_keep prune_names include_hidden d = true
  <-> kept prune_names include_hidden d.
Proof.
  unfold prune_keep, kept.
  rewrite andb_true_iff, !negb_true_iff, bool_decide_eq_false.
  destruct include_hidden, (PyStr.startswith "." d); simpl; naive_solver.
Qed.

Section SelectionFacts.
Context {U : Unicode} {R : Regex} {S : Snapshot}.
Variables (spaces_to_underscore slugify lower : bool)
          (prefix suffix : string)
          (regex_pattern regex_to : option string)
          (no_keep_extension : bool).

Local Abbreviation Build :=
  (build_rename_plans spaces_to_underscore slugify lower prefix suffix
     regex_pattern regex_to no_keep_extension).

(** Unless hidden entries are included, no plan renames an entry whose
    name begins with a dot, in recursive and in non recursive mode. *)
Theorem hidden_entries_are_not_planned (root : Path)
    (recursive include_files include_dirs : bool)
    (prune_dirs : list string) :
  Forall (fun pl => is_hidden_path (src pl) = false)
    (plans_of (Build root recursive include_files include_dirs false
                 prune_dirs)).
Proof.
  destruct recursive.
  - eapply Forall_impl;
      [apply (walk_provenance spaces_to_underscore slugify lower prefix
                suffix regex_pattern regex_to no_keep_extension)|].
    by intros pl (? & ? & ? & ? & _ & _ & _ & Hhid & _).
  - eapply Forall_impl;
      [apply (flat_provenance spaces_to_underscore slugify lower prefix
                suffix regex_pattern regex_to no_keep_extension)|].
    by intros pl (_ & Hhid & _).
Qed.

(** In non recursive mode every plan renames an entry listed directly in
    the root, a directory only if directories are included and a file only
    if files are; and the run warns about nothing. *)
Theorem flat_plans_are_selected_children (root : Path)
    (include_files include_dirs include_hidden : bool)
    (prune_dirs : list string) :
  Forall
    (fun pl =>
       (exists entries e,
           scandir (resolve root) = Some entries /\ e ∈ entries
           /\ src pl = resolve root / entry_name e)
       /\ (is_dir (src pl) = true -> include_dirs = true)
       /\ (is_file (src pl) = true -> include_files = true))
    (plans_of (Build root false include_files include_dirs include_hidden
                 prune_dirs))
  /\ warnings_of (Build root false include_files include_dirs
                    include_hidden prune_dirs) = [].
Proof.
  destruct (flat_provenance spaces_to_underscore slugify lower prefix
              suffix regex_pattern regex_to no_keep_extension root
              include_files include_dirs include_hidden prune_dirs)
    as [Hplans Hwarn].
  split; [|done]. eapply Forall_impl; [exact Hplans|].
  intros pl (Hlisted & _ & Hd & Hf). done.
Qed.

Lemma walk_plans_kept (root : Path)
    (include_files include_dirs include_hidden : bool)
    (prune_dirs : list string) :
  Forall
    (fun pl =>
       exists rel n,
         src pl = resolve root ++ rel ++ [n]
         /\ Forall (kept prune_dirs include_hidden) rel
         /\ (include_files = false -> kept prune_dirs include_hidden n))
    (plans_of (Build root true include_files include_dirs include_hidden
                 prune_dirs)).
Proof.
  eapply Forall_impl;
    [apply (walk_provenance spaces_to_underscore slugify lower prefix
              suffix regex_pattern regex_to no_keep_extension)|].
  intros pl (current & dirs & files & n & Hin & Hsrc & Hn & _). simpl in *.
  unfold walk_of in Hin.
  destruct (scandir (resolve root)) as [entries|];
    [|by apply elem_of_nil in Hin].
  pose proof (os_walk_kept prune_dirs include_hidden (resolve root) entries)
    as Hkept.
  rewrite Forall_forall in Hkept.
  destruct (Hkept _ Hin) as [(rel & Hcur & Hrel) Hdirs]. simpl in *.
  exists rel, n. split.
  { rewrite Hsrc, Hcur. unfold PathLib.joinpath. by rewrite <- app_assoc. }
  split.
  - eapply Forall_impl; [exact Hrel|]. intros d. apply prune_keep_kept.
  - intros ->. destruct Hn as [[? _]|[_ Hd]]; [done|].
    rewrite Forall_forall in Hdirs. by apply prune_keep_kept, Hdirs.
Qed.

(** In recursive mode nothing is planned below a pruned directory: every
    directory between the root and a planned entry survived the pruning,
    and so did the planned entry itself when only directories are
    renamed. *)
Theorem pruned_directories_are_skipped (root : Path)
    (include_files include_dirs include_hidden : bool)
    (prune_dirs : list string) :
  Forall
    (fun pl =>
       exists rel n,
         src pl = resolve root ++ rel ++ [n]
         /\ Forall (kept prune_dirs include_hidden) rel
         /\ (include_files = false -> kept prune_dirs include_hidden n))
    (plans_of (Build root true include_files include_dirs include_hidden
                 prune_dirs)).
Proof. apply walk_plans_kept. Qed.

(** In recursive mode every planned source passed [is_within_root], and
    every warning names a path that did not. *)
Theorem recursive_plans_are_inside_root (root : Path)
    (include_files include_dirs include_hidden : bool)
    (prune_dirs : list string) :
  Forall (fun pl => is_within_root (resolve root) (src pl) = true)
    (plans_of (Build root true include_files include_dirs include_hidden
                 prune_dirs))
  /\ Forall
       (fun w => exists p,
          w = warn_outside p /\ is_within_root (resolve root) p = false)
       (warnings_of (Build root true include_files include_dirs
                       include_hidden prune_dirs)).
Proof.
  destruct (walk_provenance spaces_to_underscore slugify lower prefix
              suffix regex_pattern regex_to no_keep_extension root
              include_files include_dirs include_hidden prune_dirs)
    as [Hplans Hwarn].
  split; [|exact Hwarn]. eapply Forall_impl; [exact Hplans|].
  by intros pl (? & ? & ? & ? & _ & _ & _ & _ & Hin).
Qed.

(** In recursive mode an entry planned below a planned directory is
    renamed before that directory. *)
Theorem nested_entries_come_first (root : Path)
    (include_files include_dirs include_hidden : bool)
    (prune_dirs : list string) (pd pc : RenamePlan) :
  let plans :=
    plans_of (Build root true include_files include_dirs include_hidden
                prune_dirs) in
  pd ∈ plans -> pc ∈ plans ->
  is_dir (src pd) = true ->
  src pd `prefix_of` src pc -> src pd <> src pc ->
  before pc pd plans.
Proof.
  intros plans Hpd Hpc Hdir [rel Hrel] Hne.
  eapply sorted_before; [apply walk_plans_sorted|done..| |].
  - intros ->. done.
  - assert (length (src pd) < length (src pc)).
    { rewrite Hrel, length_app. destruct rel; [|simpl; lia].
      by rewrite app_nil_r in Hrel. }
    unfold recursive_order. rewrite Hdir. intros [[? _]|[_ [?|[? _]]]];
      try done; lia.
Qed.
End SelectionFacts.

(** ** The verdict of the conflict detector *)

Section VerdictFacts.
Context {S : Snapshot}.

Lemma detect_conflicts_empty (plans : list RenamePlan) :
  detect_conflicts plans = []
  <-> ~ (destination_collision plans \/ target_exists_collision plans).
Proof.
  rewrite <- detect_conflicts_spec.
  destruct (detect_conflicts plans); naive_solver.
Qed.

(** Whether [detect_conflicts] reports anything does not depend on the
    order of the plans. *)
Theorem verdict_ignores_order (plans plans' : list RenamePlan) :
  plans ≡ₚ plans' ->
  (detect_conflicts plans = [] <-> detect_conflicts plans' = []).
Proof.
  intros Hperm. rewrite !detect_conflicts_empty.
  unfold destination_collision, target_exists_collision.
  by setoid_rewrite Hperm.
Qed.

(** A report for some of the plans stays when more plans are added: if
    the whole list is free of conflicts, so is every part of it. *)
Theorem verdict_of_a_part (plans part : list RenamePlan) :
  part ⊆ plans ->
  detect_conflicts plans = [] -> detect_conflicts part = [].
Proof.
  intros Hsub. rewrite !detect_conflicts_empty.
  intros Hfree [(p & q & Hp & Hq & ?)|(p & Hp & ?)]; apply Hfree.
  - left. exists p, q. auto.
  - right. exists p. auto.
Qed.
End VerdictFacts.

(** ** The executor, piece by piece *)

Section CompositionFacts.
Context {W : Type} {F : FileSystem W}.

Lemma execute_fold_shift (plans : list RenamePlan) (e0 : Execution W) :
  fold_left execute_step plans e0
  = {| world := world (execute_plans (world e0) plans);
       attempts := attempts e0 ++ attempts (execute_plans (world e0) plans);
       ok_count := ok_count e0 + ok_count (execute_plans (world e0) plans);
       err_count :=
         err_count e0 + err_count (execute_plans (world e0) plans) |}.
Proof.
  unfold execute_plans. revert e0.
  induction plans as [|p plans IH]; intros e0; simpl.
  - rewrite app_nil_r, !Nat.add_0_r. by destruct e0.
  - rewrite IH.
    rewrite (IH (execute_step _ p)).
    unfold execute_step; simpl.
    destruct (rename (world e0) (src p) (dst p)) as [w' [x|]]; simpl;
      rewrite <- app_assoc; f_equal; lia.
Qed.

(** Executing a list of plans is executing its first part and then, on the
    file system that leaves, the rest: the attempts follow one another and
    the counters add up. *)
Theorem execute_plans_app (w : W) (plans1 plans2 : list RenamePlan) :
  let e1 := execute_plans w plans1 in
  let e2 := execute_plans (world e1) plans2 in
  world (execute_plans w (plans1 ++ plans2)) = world e2
  /\ attempts (execute_plans w (plans1 ++ plans2))
     = attempts e1 ++ attempts e2
  /\ ok_count (execute_plans w (plans1 ++ plans2))
     = ok_count e1 + ok_count e2
  /\ err_count (execute_plans w (plans1 ++ plans2))
     = err_count e1 + err_count e2.
Proof.
  intros e1 e2. unfold execute_plans at 1 2 3 4.
  rewrite fold_left_app. fold (execute_plans w plans1). fold e1.
  rewrite execute_fold_shift. fold e2. done.
Qed.
End CompositionFacts.

(** ** Comma separated lists *)

Lemma contains_all_chars_iff (c : ascii) (s : string) :
  PyStr.contains c s = false
  <-> all_chars (fun x => negb (Ascii.eqb x c)) s = true.
Proof.
  induction s as [|a s IH]; simpl; [done|].
  rewrite orb_false_iff, andb_true_iff, negb_true_iff, IH. done.
Qed.

Lemma contains_strip (c : ascii) (p : ascii -> bool) (s : string) :
  PyStr.contains c s = false -> PyStr.contains c (PyStr.strip p s) = false.
Proof. rewrite !contains_all_chars_iff. apply all_chars_strip. Qed.

Lemma split_nonempty (sep : ascii) (s : string) : PyStr.split sep s <> [].
Proof.
  destruct s as [|a s]; simpl; [done|].
  destruct (Ascii.eqb a sep); [done|]. by destruct (PyStr.split sep s).
Qed.

Lemma split_items (sep : ascii) (s : string) :
  Forall (fun w => PyStr.contains sep w = false) (PyStr.split sep s).
Proof.
  induction s as [|a s IH]; simpl; [by repeat constructor|].
  destruct (Ascii.eqb a sep) eqn:Ha; [by constructor|].
  destruct (PyStr.split sep s) as [|w ws].
  { constructor; [|constructor]. simpl. by rewrite Ha. }
  apply Forall_cons in IH as [Hw Hws].
  constructor; [|done]. simpl. by rewrite Ha, Hw.
Qed.

Lemma split_single (sep : ascii) (w : string) :
  PyStr.contains sep w = false -> PyStr.split sep w = [w].
Proof.
  induction w as [|a w IH]; simpl; [done|].
  intros [Ha Hw]%orb_false_iff. rewrite Ha, IH; done.
Qed.

Lemma split_app (sep : ascii) (w rest : string) :
  PyStr.contains sep w = false ->
  PyStr.split sep (w +:+ String sep rest) = w :: PyStr.split sep rest.
Proof.
  induction w as [|a w IH]; intros Hw.
  - rewrite append_nil_l. simpl. by rewrite Ascii.eqb_refl.
  - simpl in Hw. apply orb_false_iff in Hw as [Ha Hw].
    rewrite append_cons. simpl. by rewrite Ha, IH.
Qed.

Lemma split_join (sep : ascii) (l : list string) :
  l <> [] ->
  Forall (fun w => PyStr.contains sep w = false) l ->
  PyStr.split sep (PyStr.join sep l) = l.
Proof.
  induction l as [|w l IH]; [done|]. intros _ [Hw Hl]%Forall_cons.
  destruct l as [|w' l]; [by apply split_single|].
  change (PyStr.join sep (w :: w' :: l))
    with (w +:+ String sep (PyStr.join sep (w' :: l))).
  rewrite split_app by done. by rewrite IH.
Qed.

Lemma first_char_app (a b : string) :
  a <> "" -> first_char (a +:+ b) = first_char a.
Proof. by destruct a. Qed.

Lemma last_char_app (a b : string) :
  b <> "" -> last_char (a +:+ b) = last_char b.
Proof.
  intros Hb. induction a as [|x a IH]; [done|].
  rewrite append_cons. simpl. rewrite IH.
  destruct (a +:+ b) eqn:Hab; [|done].
  destruct a; [by rewrite append_nil_l in Hab|done].
Qed.

Lemma join_edges (sep : ascii) (p : ascii -> bool) (l : list string) :
  Forall (fun w => w <> "" /\ edges_out p w) l ->
  l <> [] ->
  PyStr.join sep l <> "" /\ edges_out p (PyStr.join sep l).
Proof.
  induction l as [|w l IH]; [done|].
  intros [[Hw [Hf Hl]] Hrest]%Forall_cons _.
  destruct l as [|w' l]; [by repeat split|].
  destruct (IH Hrest) as (Hne & Hf' & Hl'); [done|].
  change (PyStr.join sep (w :: w' :: l))
    with (w +:+ String sep (PyStr.join sep (w' :: l))).
  split; [by destruct w|]. split.
  - intros c. rewrite first_char_app by done. apply Hf.
  - intros c. rewrite last_char_app by done.
    change (last_char (String sep (PyStr.join sep (w' :: l))))
      with (match PyStr.join sep (w' :: l) with
            | EmptyString => Some sep
            | String _ _ => last_char (PyStr.join sep (w' :: l))
            end).
    destruct (PyStr.join sep (w' :: l)) eqn:Hj; [done|]. apply Hl'.
Qed.

Section CsvFacts.
Context {U : Unicode}.

(** Every item [parse_csv_list] returns is non-empty, has no white space
    at either end and holds no comma; nothing is returned for text that is
    empty or all white space. *)
Theorem parse_csv_list_items (raw : string) :
  Forall csv_item (parse_csv_list raw)
  /\ (all_chars isspace raw = true -> parse_csv_list raw = []).
Proof.
  unfold parse_csv_list. split.
  - destruct (PyStr.truthy (PyStr.strip isspace raw)); simpl;
      [|constructor].
    apply Forall_forall. intros w [Hin Hw]%list_elem_of_In%filter_In.
    apply list_elem_of_In, list_elem_of_fmap in Hin as (x & -> & Hx).
    split; [by destruct (PyStr.strip isspace x)|].
    split; [apply strip_edges|].
    apply contains_strip.
    pose proof (split_items "," (PyStr.strip isspace raw)) as Hall.
    rewrite Forall_forall in Hall. by apply Hall.
  - intros Hall. by rewrite strip_all.
Qed.

(** Reading back a list written with commas: [parse_csv_list] returns the
    items that were joined, provided each of them is one it could return. *)
Theorem parse_csv_list_join (items : list string) :
  Forall csv_item items ->
  parse_csv_list (PyStr.join "," items) = items.
Proof.
  intros Hitems. unfold parse_csv_list.
  destruct items as [|w l]; [done|].
  destruct (join_edges "," isspace (w :: l)) as [Hne Hedges]; [|done|].
  { eapply Forall_impl; [exact Hitems|]. by intros x (? & ? & _). }
  rewrite strip_id by done.
  assert (PyStr.truthy (PyStr.join "," (w :: l)) = true) as ->
    by (by destruct (PyStr.join "," (w :: l))).
  cbn [negb]. rewrite split_join; [|done|].
  2:{ eapply Forall_impl; [exact Hitems|]. by intros x (_ & _ & ?). }
  clear Hne Hedges. induction Hitems as [|x xs (Hx & Hex & _) _ IH];
    [done|].
  rewrite fmap_cons, strip_id by done. simpl.
  destruct x; [done|]. simpl. by rewrite IH.
Qed.
End CsvFacts.

(** ** The run as a whole *)

Section RunFacts.
Context {U : Unicode} {R : Regex} {W : Type} {F : FileSystem W}.

(** Without [--yes], a run renames nothing unless the line typed at the
    prompt is [sim] once stripped and lower-cased: it attempts no rename
    and leaves the file system as it found it. *)
Theorem no_rename_without_confirmation (w : W) (stdin : string)
    (args : Args) (r : Run W) :
  arg_yes args = false ->
  str_lower (PyStr.strip isspace stdin) <> "sim" ->
  main w stdin args = Ok r ->
  renames r = [] /\ final_world r = w /\ exit_code r <> 4%Z.
Proof.
  intros Hyes Hresp. unfold main.
  destruct (bad_regex args); [by intros [= <-]|].
  destruct (main_plans w args) as [[plans warnings]|e]; simpl; [|done].
  destruct plans as [|p plans]; [by intros [= <-]|].
  destruct (detect_conflicts (p :: plans)); [|by intros [= <-]].
  destruct (arg_dry_run args); [by intros [= <-]|].
  rewrite Hyes. simpl.
  destruct (String.eqb_spec (str_lower (PyStr.strip isspace stdin)) "sim");
    [done|].
  by intros [= <-].
Qed.

(** In a recursive run the default pruned names always apply, whatever
    [--prune-dirs] adds: no directory between the root and a planned entry
    is one of [DEFAULT_PRUNE_DIRS] or one of the names given on the command
    line. *)
Theorem default_prunes_always_apply (w : W) (args : Args) :
  arg_recursive args = true ->
  Forall
    (fun pl =>
       exists rel n,
         src pl
         = resolve (Snapshot := snapshot w)
             (resolve (Snapshot := snapshot w) (arg_root args))
           ++ rel ++ [n]
         /\ Forall (fun d => (d ∉ DEFAULT_PRUNE_DIRS)
                             /\ (d ∉ parse_csv_list (arg_prune_dirs args)))
              rel)
    (plans_of (main_plans w args)).
Proof.
  intros Hrec. unfold main_plans. rewrite Hrec.
  eapply Forall_impl; [apply walk_plans_kept|].
  intros pl (rel & n & Hsrc & Hrel & _). exists rel, n. split; [done|].
  eapply Forall_impl; [exact Hrel|].
  intros d [Hd _]. rewrite elem_of_app in Hd. tauto.
Qed.
End RunFacts.

(** ** The further properties on concrete runs *)

Section MoreExamples.
#[local] Existing Instance ascii_tables.
#[local] Existing Instance no_regex.

(** [slugify_name_idempotent] at ["Relatorio Final!!"]. *)
Lemma slugify_idempotent_witness :
  strip_accents (slugify_name "Relatorio Final!!" true true true)
  = slugify_name "Relatorio Final!!" true true true
  /\ str_lower (slugify_name "Relatorio Final!!" true true true)
     = slugify_name "Relatorio Final!!" true true true
  /\ slugify_name (slugify_name "Relatorio Final!!" true true true)
       true false true
     = slugify_name "Relatorio Final!!" true true true.
Proof.
  assert (strip_accents (slugify_name "Relatorio Final!!" true true true)
          = slugify_name "Relatorio Final!!" true true true) as Hacc
    by (vm_compute; reflexivity).
  assert (str_lower (slugify_name "Relatorio Final!!" true true true)
          = slugify_name "Relatorio Final!!" true true true) as Hlow
    by (vm_compute; reflexivity).
  split; [assumption|]. split; [assumption|].
  exact (slugify_name_idempotent "Relatorio Final!!" true true true true
           false Hacc (fun _ => Hlow)).
Defined.

(** [new_name_never_empty] at a name that is all white space and at the
    file [/r/My Report.PDF]. *)
Lemma new_name_witness :
  (apply_transformations "   " false false false "" "" None None false
   = Ok "item"
   /\ "item" <> ""
   /\ ("item" = "item" \/ edges_out isspace "item"))
  /\ (new_name_of (S := demo_snapshot (demo_single "My Report.PDF"))
        true false false "" "" None None false demo_report
      = Ok "My_Report.PDF"
      /\ "My_Report.PDF" <> "").
Proof.
  assert (apply_transformations "   " false false false "" "" None None
            false = Ok "item") as H1 by (vm_compute; reflexivity).
  assert (new_name_of (S := demo_snapshot (demo_single "My Report.PDF"))
            true false false "" "" None None false demo_report
          = Ok "My_Report.PDF") as H2 by (vm_compute; reflexivity).
  split.
  - split; [assumption|].
    exact (proj1 new_name_never_empty _ _ _ _ _ _ _ _ _ _ H1).
  - split; [assumption|].
    exact (proj2 new_name_never_empty _ _ _ _ _ _ _ _ _ _ _ H2).
Defined.

(** [neutral_transform_idempotent] at [" notes "]. *)
Lemma neutral_idempotent_witness :
  PyStr.strip isspace "item" = "item"
  /\ apply_transformations " notes " false false false "" "" None None
       false = Ok "notes"
  /\ apply_transformations "notes" false false false "" "" None None false
     = Ok "notes".
Proof.
  assert (PyStr.strip isspace "item" = "item") as Hitem
    by (vm_compute; reflexivity).
  assert (apply_transformations " notes " false false false "" "" None None
            false = Ok "notes") as Hrun by (vm_compute; reflexivity).
  split; [assumption|]. split; [assumption|].
  exact (neutral_transform_idempotent " notes " None false "notes" Hitem
           Hrun).
Defined.

(** [rejected_replacement_is_ignored] at the replacement [\]. *)
Lemma rejected_replacement_witness :
  (PyStr.truthy "(a)" = false
   \/ re_sub (Regex := bad_escape_engine) "(a)" (or_empty (Some "\")) "a b"
      = Raise re_error)
  /\ apply_transformations (R := bad_escape_engine) "a b" true false false
       "" "" (Some "(a)") (Some "\") false
     = apply_transformations (R := bad_escape_engine) "a b" true false false
         "" "" None (Some "\") false.
Proof.
  assert (PyStr.truthy "(a)" = false
          \/ re_sub (Regex := bad_escape_engine) "(a)" (or_empty (Some "\"))
               "a b" = Raise re_error) as Herr
    by (right; vm_compute; reflexivity).
  split; [assumption|].
  exact (rejected_replacement_is_ignored (R := bad_escape_engine) "a b" true
           false false "" "" "(a)" (Some "\") false Herr).
Defined.

(** [extension_is_preserved] at the plan for [/r/My Report.PDF]. *)
Lemma extension_witness :
  plan_for "My Report.PDF" "My_Report.PDF"
  ∈ plans_of
      (build_rename_plans (S := demo_snapshot (demo_single "My Report.PDF"))
         true false false "" "" None None false demo_root false true true
         false [])
  /\ is_file (Snapshot := demo_snapshot (demo_single "My Report.PDF"))
       (src (plan_for "My Report.PDF" "My_Report.PDF")) = true
  /\ PathLib.suffix (src (plan_for "My Report.PDF" "My_Report.PDF")) <> ""
  /\ PathLib.suffix (dst (plan_for "My Report.PDF" "My_Report.PDF"))
     = PathLib.suffix (src (plan_for "My Report.PDF" "My_Report.PDF")).
Proof.
  assert (plan_for "My Report.PDF" "My_Report.PDF"
          ∈ plans_of
              (build_rename_plans
                 (S := demo_snapshot (demo_single "My Report.PDF"))
                 true false false "" "" None None false demo_root false true
                 true false [])) as Hin.
  { assert (plans_of
              (build_rename_plans
                 (S := demo_snapshot (demo_single "My Report.PDF"))
                 true false false "" "" None None false demo_root false true
                 true false [])
            = [plan_for "My Report.PDF" "My_Report.PDF"]) as ->
      by (vm_compute; reflexivity).
    apply list_elem_of_here. }
  assert (is_file (Snapshot := demo_snapshot (demo_single "My Report.PDF"))
            (src (plan_for "My Report.PDF" "My_Report.PDF")) = true) as Hf
    by (vm_compute; reflexivity).
  assert (PathLib.suffix (src (plan_for "My Report.PDF" "My_Report.PDF"))
          <> "") as Hs by (vm_compute; discriminate).
  split; [assumption|]. split; [assumption|]. split; [assumption|].
  exact (proj1 (Forall_forall _ _)
           (extension_is_preserved
              (S := demo_snapshot (demo_single "My Report.PDF"))
              true false false "" "" None None demo_root false true true
              false [])
           _ Hin Hf Hs).
Defined.

(** [nested_entries_come_first] at the recursive run over [demo_deep]:
    [a b/c d] is renamed before [a b]. *)
Lemma nested_entries_witness :
  let plans :=
    plans_of
      (build_rename_plans (S := demo_snapshot demo_deep)
         true false false "" "" None None false demo_root true true true
         false DEFAULT_PRUNE_DIRS) in
  plan_a_b ∈ plans /\ plan_c_d ∈ plans
  /\ is_dir (Snapshot := demo_snapshot demo_deep) (src plan_a_b) = true
  /\ src plan_a_b `prefix_of` src plan_c_d
  /\ src plan_a_b <> src plan_c_d
  /\ before plan_c_d plan_a_b plans.
Proof.
  intros plans.
  assert (plans = [plan_x_y; plan_c_d; plan_a_b]) as Hplans
    by (vm_compute; reflexivity).
  assert (plan_a_b ∈ plans) as Ha
    by (rewrite Hplans; do 2 apply list_elem_of_further;
        apply list_elem_of_here).
  assert (plan_c_d ∈ plans) as Hc
    by (rewrite Hplans; apply list_elem_of_further; apply list_elem_of_here).
  assert (is_dir (Snapshot := demo_snapshot demo_deep) (src plan_a_b)
          = true) as Hdir by (vm_compute; reflexivity).
  assert (src plan_a_b `prefix_of` src plan_c_d) as Hpre
    by (exists ["c d"]; reflexivity).
  assert (src plan_a_b <> src plan_c_d) as Hne by discriminate.
  repeat (split; [assumption|]).
  exact (nested_entries_come_first (S := demo_snapshot demo_deep)
           true false false "" "" None None false demo_root true true false
           DEFAULT_PRUNE_DIRS plan_a_b plan_c_d Ha Hc Hdir Hpre Hne).
Defined.

(** [verdict_ignores_order] at two plans of [demo_case] that reach one
    destination. *)
Lemma verdict_order_witness :
  [plan_for "A.TXT" "b"; plan_for "a.txt" "b"]
  ≡ₚ [plan_for "a.txt" "b"; plan_for "A.TXT" "b"]
  /\ (detect_conflicts (S := demo_snapshot demo_case)
        [plan_for "A.TXT" "b"; plan_for "a.txt" "b"] = []
      <-> detect_conflicts (S := demo_snapshot demo_case)
            [plan_for "a.txt" "b"; plan_for "A.TXT" "b"] = []).
Proof.
  assert ([plan_for "A.TXT" "b"; plan_for "a.txt" "b"]
          ≡ₚ [plan_for "a.txt" "b"; plan_for "A.TXT" "b"]) as Hperm
    by apply Permutation_swap.
  split; [assumption|].
  exact (verdict_ignores_order (S := demo_snapshot demo_case) _ _ Hperm).
Defined.

(** [verdict_of_a_part] at the plans of the recursive run over
    [demo_deep]. *)
Lemma verdict_part_witness :
  [plan_c_d] ⊆ [plan_x_y; plan_c_d; plan_a_b]
  /\ detect_conflicts (S := demo_snapshot demo_deep)
       [plan_x_y; plan_c_d; plan_a_b] = []
  /\ detect_conflicts (S := demo_snapshot demo_deep) [plan_c_d] = [].
Proof.
  assert ([plan_c_d] ⊆ [plan_x_y; plan_c_d; plan_a_b]) as Hsub.
  { intros x Hx. apply list_elem_of_singleton in Hx. rewrite Hx.
    apply list_elem_of_further, list_elem_of_here. }
  assert (detect_conflicts (S := demo_snapshot demo_deep)
            [plan_x_y; plan_c_d; plan_a_b] = []) as Hfree
    by (vm_compute; reflexivity).
  split; [assumption|]. split; [assumption|].
  exact (verdict_of_a_part (S := demo_snapshot demo_deep) _ _ Hsub Hfree).
Defined.

(** [parse_csv_list_join] at two items, one of them with a space inside. *)
Lemma parse_csv_join_witness :
  Forall csv_item ["dist"; "out dir"]
  /\ parse_csv_list (PyStr.join "," ["dist"; "out dir"])
     = ["dist"; "out dir"].
Proof.
  assert (Forall csv_item ["dist"; "out dir"]) as Hitems.
  { repeat constructor; try discriminate;
      intros c Hc; vm_compute in Hc; injection Hc as <-; reflexivity. }
  split; [assumption|].
  exact (parse_csv_list_join ["dist"; "out dir"] Hitems).
Defined.

(** [no_rename_without_confirmation] at the run over [demo_deep] answered
    with [nao]. *)
Lemma no_confirmation_witness :
  arg_yes demo_args_ask = false
  /\ str_lower (PyStr.strip isspace "nao") <> "sim"
  /\ main demo_deep "nao" demo_args_ask
     = Ok {| exit_code := 1; final_world := demo_deep; renames := [] |}
  /\ renames {| exit_code := 1; final_world := demo_deep; renames := [] |}
     = []
  /\ final_world
       {| exit_code := 1; final_world := demo_deep; renames := [] |}
     = demo_deep
  /\ exit_code {| exit_code := 1; final_world := demo_deep; renames := [] |}
     <> 4%Z.
Proof.
  assert (str_lower (PyStr.strip isspace "nao") <> "sim") as Hresp
    by (vm_compute; discriminate).
  assert (main demo_deep "nao" demo_args_ask
          = Ok {| exit_code := 1; final_world := demo_deep; renames := [] |})
    as Hrun by (vm_compute; reflexivity).
  split; [reflexivity|]. split; [assumption|]. split; [assumption|].
  exact (no_rename_without_confirmation demo_deep "nao" demo_args_ask _
           eq_refl Hresp Hrun).
Defined.

(** [default_prunes_always_apply] at the recursive run over [demo_deep],
    which passes [--prune-dirs "tmp, a b/c d"]: the plans are those below
    [a b], none below [.git] or [node_modules]. *)
Lemma default_prunes_witness :
  arg_recursive demo_args_ask = true
  /\ plans_of (main_plans demo_deep demo_args_ask)
     = [plan_x_y; plan_c_d; plan_a_b]
  /\ Forall
       (fun pl =>
          exists rel n,
            src pl
            = resolve (Snapshot := snapshot demo_deep)
                (resolve (Snapshot := snapshot demo_deep)
                   (arg_root demo_args_ask))
              ++ rel ++ [n]
            /\ Forall
                 (fun d => (d ∉ DEFAULT_PRUNE_DIRS)
                           /\ (d ∉ parse_csv_list
                                     (arg_prune_dirs demo_args_ask)))
                 rel)
       (plans_of (main_plans demo_deep demo_args_ask)).
Proof.
  split; [reflexivity|]. split; [vm_compute; reflexivity|].
  exact (default_prunes_always_apply demo_deep demo_args_ask eq_refl).
Defined.
End MoreExamples.

(** * The executor and the exit status *)

Section TurnFacts.
Context {W : Type} {F : FileSystem W}.

Lemma renamed_in_turn_plans (w w' : W) plans log :
  renamed_in_turn w plans log w' -> log.*1 = plans.
Proof. induction 1; simpl; [done|]. by f_equal. Qed.


End TurnFacts.

Section ExitFacts.
Context {U : Unicode} {R : Regex} {W : Type} {F : FileSystem W}.

End ExitFacts.

Section ExecutorClaim.
Context {U : Unicode} {R : Regex} {W : Type} {F : FileSystem W}.

End ExecutorClaim.

(** * The neutral pipeline in the builder *)

(** ** Loops that only append *)

Section LoopFacts.
Context {A St : Type} (get : St -> list RenamePlan)
        (body : St -> A -> result St).
Hypothesis body_grows :
  forall s x s', body s x = Ok s' -> get s ⊆ get s'.


End LoopFacts.



Section NeutralBuilder.
Context {U : Unicode} {R : Regex} {S : Snapshot}.
Variables (no_keep_extension : bool) (regex_to : option string).

Local Abbreviation NewName :=
  (new_name_of false false false "" "" None regex_to no_keep_extension).
Local Abbreviation PlanEntry :=
  (plan_entry false false false "" "" None regex_to no_keep_extension).
Local Abbreviation Build :=
  (build_rename_plans false false false "" "" None regex_to
     no_keep_extension).











End NeutralBuilder.

Section NeutralClaim.
Context {U : Unicode} {R : Regex} {S : Snapshot}.


End NeutralClaim.

Section RevisedExamples.
#[local] Existing Instance ascii_tables.
#[local] Existing Instance no_regex.




(** The file [ .] strips to [.], a name [with_name] refuses: the builder
    raises [ValueError] and there is no plan. *)
Lemma dot_name_raises :
  build_rename_plans (S := demo_snapshot (demo_single " ."))
    false false false "" "" None None false demo_root false true true false
    []
  = Raise ValueError.
Proof. vm_compute; reflexivity. Qed.
End RevisedExamples.
